(** * OpenFrontIO: client session state (src/client/jwt.ts) and the
      server's CORS origin allow-list

    A shallow embedding of the two source files.  JavaScript values are
    modelled by the TypeScript types the code is written against:
    [string | null] and [string | undefined] are [option string], numbers
    that hold seconds or milliseconds are [Z], [localStorage] is a finite
    map from keys to strings.  Synchronous code runs in a state monad with
    exceptions; an [async] function is split at each [await] into the part
    that runs when it is called and one continuation per suspension point. *)

From Stdlib Require Import ZArith Lia Bool List String Ascii.
From stdpp Require Import base gmap strings list.

Open Scope string_scope.
Open Scope Z_scope.

(** ** The JavaScript string and array operations the code calls *)
Module JS.

(** Truthiness of a string: every string but the empty one. *)
Definition truthy (s : string) : bool :=
  match s with
  | EmptyString => false
  | String _ _ => true
  end.

(** Truthiness of [string | null | undefined]. *)
Definition truthy_opt (o : option string) : bool :=
  match o with
  | Some s => truthy s
  | None => false
  end.

(** [a || b] where [a : string | undefined] and [b : string]. *)
Definition or_else (a : option string) (b : string) : string :=
  match a with
  | Some s => if truthy s then s else b
  | None => b
  end.

(** [s.startsWith(p)]. *)
Definition startsWith (p s : string) : bool := String.prefix p s.

(** [s.slice(n)] for [0 <= n]. *)
Definition slice (n : nat) (s : string) : string :=
  String.substring n (String.length s - n) s.

(** [s.split(c)] for a separator of one character. *)
Fixpoint split (sep : ascii) (s : string) : list string :=
  match s with
  | EmptyString => [EmptyString]
  | String c rest =>
      if Ascii.eqb c sep then EmptyString :: split sep rest
      else match split sep rest with
           | piece :: pieces => String c piece :: pieces
           | [] => [String c EmptyString]
           end
  end.

(** [xs.slice(-n)]: the last [n] elements (all of them when there are fewer). *)
Definition slice_last {A} (n : nat) (xs : list A) : list A :=
  skipn (List.length xs - n) xs.

(** [xs.join(sep)]. *)
Definition join (sep : string) (xs : list string) : string :=
  String.concat sep xs.

(** [s.replace(pat, rep)] with a string pattern: only the first occurrence
    is replaced ([rep] holds no [$] here). *)
Definition replace (pat rep s : string) : string :=
  match String.index 0 pat s with
  | Some i =>
      String.substring 0 i s +:+ rep
        +:+ slice (i + String.length pat) s
  | None => s
  end.

(** [xs.indexOf(x)] on an array of strings: the first index whose element is
    strictly equal to [x], or -1. *)
Fixpoint indexOf_from (i : Z) (xs : list string) (x : string) : Z :=
  match xs with
  | [] => -1
  | y :: ys => if String.eqb y x then i else indexOf_from (i + 1) ys x
  end.

Definition indexOf (xs : list string) (x : string) : Z := indexOf_from 0 xs x.

(** [params.get(k)] on a [URLSearchParams]: the first value under [k]. *)
Fixpoint searchParams_get (k : string) (ps : list (string * string)) : option string :=
  match ps with
  | [] => None
  | (k', v) :: rest => if String.eqb k' k then Some v else searchParams_get k rest
  end.

End JS.

(** ** Facts about the string operations *)
Module JSFacts.

Lemma split_nonempty (sep : ascii) (s : string) : JS.split sep s <> [].
Proof.
  destruct s as [|c rest]; simpl; [discriminate|].
  destruct (Ascii.eqb c sep); [discriminate|].
  destruct (JS.split sep rest); discriminate.
Qed.

Lemma concat_cons_cons (sep x y : string) (l : list string) :
  String.concat sep (x :: y :: l) = x +:+ sep +:+ String.concat sep (y :: l).
Proof. reflexivity. Qed.

(** Joining the pieces of a split gives the string back. *)
Lemma join_split (sep : ascii) (s : string) :
  JS.join (String sep EmptyString) (JS.split sep s) = s.
Proof.
  unfold JS.join. induction s as [|c rest IH]; [reflexivity|]. simpl JS.split.
  destruct (Ascii.eqb_spec c sep) as [->|Hne].
  - pose proof (split_nonempty sep rest) as Hn.
    destruct (JS.split sep rest) as [|p ps]; [exfalso; apply Hn; reflexivity|].
    rewrite concat_cons_cons, IH. reflexivity.
  - pose proof (split_nonempty sep rest) as Hn.
    destruct (JS.split sep rest) as [|p ps]; [exfalso; apply Hn; reflexivity|].
    destruct ps as [|q qs].
    + simpl in *. congruence.
    + rewrite concat_cons_cons. rewrite concat_cons_cons in IH.
      rewrite <- IH. reflexivity.
Qed.

Lemma split_app (sep : ascii) (a b : string) :
  JS.split sep (a +:+ String sep b) = (JS.split sep a ++ JS.split sep b)%list.
Proof.
  induction a as [|c a IH]; simpl.
  - rewrite Ascii.eqb_refl. reflexivity.
  - destruct (Ascii.eqb c sep); [rewrite IH; reflexivity|].
    rewrite IH. pose proof (split_nonempty sep a) as Hn.
    destruct (JS.split sep a); [exfalso; apply Hn; reflexivity | reflexivity].
Qed.

Lemma slice_last_app {A} (n : nat) (xs ys : list A) :
  (n <= List.length ys)%nat -> JS.slice_last n (xs ++ ys) = JS.slice_last n ys.
Proof.
  intros H. unfold JS.slice_last. rewrite length_app.
  replace (List.length xs + List.length ys - n)%nat
    with (List.length xs + (List.length ys - n))%nat by lia.
  rewrite skipn_app, skipn_all2 by lia. simpl.
  replace (List.length xs + (List.length ys - n) - List.length xs)%nat
    with (List.length ys - n)%nat by lia.
  reflexivity.
Qed.

Lemma slice_last_short {A} (n : nat) (xs : list A) :
  (List.length xs <= n)%nat -> JS.slice_last n xs = xs.
Proof.
  intros H. unfold JS.slice_last.
  replace (List.length xs - n)%nat with 0%nat by lia. reflexivity.
Qed.

Lemma slice_last_length {A} (n : nat) (xs : list A) :
  (List.length (JS.slice_last n xs) <= n)%nat.
Proof. unfold JS.slice_last. rewrite length_skipn. lia. Qed.

Lemma slice_last_nonempty {A} (n : nat) (xs : list A) :
  (0 < n)%nat -> xs <> [] -> JS.slice_last n xs <> [].
Proof.
  intros Hn Hx E. apply (f_equal (@List.length A)) in E.
  unfold JS.slice_last in E. rewrite length_skipn in E. simpl in E.
  destruct xs; [exfalso; apply Hx; reflexivity|]. simpl in E. lia.
Qed.

(** A piece of a split holds no separator: splitting it again gives it back. *)
Lemma split_piece (sep : ascii) (s : string) :
  Forall (fun p => JS.split sep p = [p]) (JS.split sep s).
Proof.
  induction s as [|c rest IH]; simpl.
  - constructor; [reflexivity | constructor].
  - destruct (Ascii.eqb c sep) eqn:E.
    + constructor; [reflexivity | exact IH].
    + pose proof (split_nonempty sep rest) as Hn.
      destruct (JS.split sep rest) as [|p ps]; [exfalso; apply Hn; reflexivity|].
      inversion IH as [|? ? Hp Hps]; subst.
      constructor; [|exact Hps]. simpl. rewrite E, Hp. reflexivity.
Qed.

(** Splitting the join of pieces without a separator gives the pieces back. *)
Lemma split_join (sep : ascii) (xs : list string) :
  xs <> [] ->
  Forall (fun p => JS.split sep p = [p]) xs ->
  JS.split sep (JS.join (String sep EmptyString) xs) = xs.
Proof.
  unfold JS.join. induction xs as [|x xs IH]; [congruence|]. intros _ Hall.
  inversion Hall as [|? ? Hx Hxs]; subst.
  destruct xs as [|y ys]; [exact Hx|].
  rewrite concat_cons_cons.
  change (x +:+ String sep EmptyString +:+ String.concat (String sep EmptyString) (y :: ys))
    with (x +:+ String sep (String.concat (String sep EmptyString) (y :: ys))).
  rewrite split_app, Hx, IH by (congruence || assumption). reflexivity.
Qed.

Lemma Forall_slice_last {A} (P : A -> Prop) (n : nat) (xs : list A) :
  Forall P xs -> Forall P (JS.slice_last n xs).
Proof.
  intros H. unfold JS.slice_last. rewrite <- (firstn_skipn (List.length xs - n) xs) in H.
  apply Forall_app in H. apply H.
Qed.

Lemma substring_all (s : string) : String.substring 0 (String.length s) s = s.
Proof. induction s as [|c s IH]; simpl; [reflexivity | rewrite IH; reflexivity]. Qed.

(** [("#" + q).slice(1)] is [q]. *)
Lemma slice_1_cons (c : ascii) (q : string) : JS.slice 1 (String c q) = q.
Proof.
  unfold JS.slice. simpl String.length.
  replace (S (String.length q) - 1)%nat with (String.length q) by lia.
  simpl. apply substring_all.
Qed.

End JSFacts.

(** ** The server's origin gatekeeper *)
Module Cors.

Section Gatekeeper.

(** The [GameEnv] enumeration lives in core/configuration/Config; the
    gatekeeper only compares [config.env()] with [GameEnv.Dev]. *)
Context {GameEnv : Type} `{EqDecision GameEnv} (Dev : GameEnv).

(** What the gatekeeper reads of the server configuration. *)
Record ServerConfig := {
  config_origin : string;   (* config.origin() *)
  config_env : GameEnv      (* config.env() *)
}.

(** [allowedOrigins] as it stands once the module has been loaded.
    [localIp] is what [getLocalIP()] returned. *)
Definition allowedOrigins (config : ServerConfig) (localIp : option string) : list string :=
  [config_origin config; "capacitor://openfront.io"; "https://openfront.io"]
  ++ (if decide (config_env config = Dev) then
        match localIp with
        | Some ip => if JS.truthy ip then ["http://" +:+ ip +:+ ":9000"] else []
        | None => []
        end
      else []).

(** The two ways the origin function calls [callback]. *)
Inductive CorsCallback :=
| Callback (err : option string) (allow : option bool).

Record CorsOptions := {
  origin : option string -> CorsCallback;   (* the callback's arguments as the result *)
  credentials : bool
}.

(** [corsOptions], over the allow-list the module has built. *)
Definition corsOptions (allowedOrigins : list string) : CorsOptions :=
  {| origin := fun origin =>
       match origin with
       | None => Callback None (Some true)
       | Some o =>
           (* allow requests with no origin (like mobile apps or curl requests) *)
           if negb (JS.truthy o) then Callback None (Some true)
           else if negb (JS.indexOf allowedOrigins o =? -1) then Callback None (Some true)
           else Callback (Some "Not allowed by CORS") None
       end;
     credentials := true |}.

Definition allows (c : CorsCallback) : Prop := c = Callback None (Some true).
Definition rejects (c : CorsCallback) : Prop :=
  exists msg, c = Callback (Some msg) None.

(** *** Properties of the gatekeeper *)

Lemma indexOf_from_absent (xs : list string) (x : string) (i : Z) :
  0 <= i -> (JS.indexOf_from i xs x = -1 <-> x ∉ xs).
Proof.
  revert i. induction xs as [|y ys IH]; intros i Hi; simpl.
  - split; [intros _; apply not_elem_of_nil | reflexivity].
  - destruct (String.eqb_spec y x) as [->|Hne].
    + split; [lia | intros H; exfalso; apply H; left].
    + rewrite (IH (i + 1)) by lia. rewrite not_elem_of_cons. split.
      * intros H. split; [congruence | exact H].
      * intros [_ H]. exact H.
Qed.

Lemma indexOf_absent (xs : list string) (x : string) :
  JS.indexOf xs x = -1 <-> x ∉ xs.
Proof. apply indexOf_from_absent. lia. Qed.

Lemma corsOptions_origin_nonempty (allowed : list string) (o : string) :
  o <> EmptyString ->
  origin (corsOptions allowed) (Some o)
  = if decide (o ∈ allowed) then Callback None (Some true)
    else Callback (Some "Not allowed by CORS") None.
Proof.
  intros Ho. unfold corsOptions, origin.
  destruct o as [|c o']; [congruence|]. simpl negb at 1. cbv iota.
  destruct (decide (String c o' ∈ allowed)) as [Hin|Hout].
  - destruct (JS.indexOf allowed (String c o') =? -1) eqn:E; [|reflexivity].
    apply Z.eqb_eq, indexOf_absent in E. contradiction.
  - apply indexOf_absent in Hout. rewrite Hout. reflexivity.
Qed.

(** X1: the members of the allow-list are the server's own origin, the two
    fixed production origins and, only in a development environment with a
    non-empty local address, that address as an http origin on port 9000. *)
Lemma allowedOrigins_elem (config : ServerConfig) (localIp : option string) (o : string) :
  o ∈ allowedOrigins config localIp
  <-> o = config_origin config
      \/ o = "capacitor://openfront.io"
      \/ o = "https://openfront.io"
      \/ (config_env config = Dev
          /\ exists ip, localIp = Some ip /\ ip <> EmptyString
                        /\ o = "http://" +:+ ip +:+ ":9000").
Proof.
  unfold allowedOrigins. rewrite elem_of_app, !elem_of_cons, elem_of_nil.
  destruct (decide (config_env config = Dev)) as [Hdev|Hdev].
  - destruct localIp as [[|c ip]|]; simpl; rewrite ?elem_of_cons, ?elem_of_nil.
    + split; [tauto|]. intros [?|[?|[?|(_ & ip & [= <-] & Hne & _)]]]; tauto.
    + split.
      * intros [[?|[?|[?|[]]]]|[->|[]]]; auto.
        do 3 right. split; [exact Hdev|]. eexists. split; [reflexivity|].
        split; [discriminate | reflexivity].
      * intros [?|[?|[?|(_ & ip' & [= <-] & _ & ->)]]]; auto.
    + split; [tauto|]. intros [?|[?|[?|(_ & ip & [=] & _)]]]; tauto.
  - rewrite elem_of_nil. split; [tauto|].
    intros [?|[?|[?|(H & _)]]]; tauto.
Qed.

(** C6, as amended: a request without an Origin header, or with an empty
    one, is allowed; a non-empty Origin that is an element of the allow-list
    is allowed, and the options carry [credentials: true]; every other
    non-empty Origin is rejected with the error "Not allowed by CORS". *)
Theorem C6_gatekeeper_decision (config : ServerConfig) (localIp : option string)
    (header : option string) :
  let options := corsOptions (allowedOrigins config localIp) in
  (header = None \/ header = Some EmptyString -> allows (origin options header))
  /\ (forall o, header = Some o -> o <> EmptyString ->
        o ∈ allowedOrigins config localIp ->
        allows (origin options header) /\ credentials options = true)
  /\ (forall o, header = Some o -> o <> EmptyString ->
        o ∉ allowedOrigins config localIp ->
        origin options header = Callback (Some "Not allowed by CORS") None).
Proof.
  intros options. repeat split.
  - intros [->| ->]; reflexivity.
  - subst header. unfold options. rewrite corsOptions_origin_nonempty by assumption.
    rewrite decide_True by assumption. reflexivity.
  - intros o -> Ho Hout. unfold options.
    rewrite corsOptions_origin_nonempty by assumption.
    rewrite decide_False by assumption. reflexivity.
Qed.

(** X2: whatever the configuration and the local address, the server's own
    origin and the two fixed production origins are allowed. *)
Theorem X2_fixed_origins_always_allowed (config : ServerConfig) (localIp : option string) :
  let options := corsOptions (allowedOrigins config localIp) in
  allows (origin options (Some (config_origin config)))
  /\ allows (origin options (Some "capacitor://openfront.io"))
  /\ allows (origin options (Some "https://openfront.io")).
Proof.
  intros options. unfold options, allows.
  assert (H : forall o, o ∈ allowedOrigins config localIp ->
            origin (corsOptions (allowedOrigins config localIp)) (Some o)
            = Callback None (Some true)).
  { intros o Hin. destruct o as [|c o']; [reflexivity|].
    rewrite corsOptions_origin_nonempty by discriminate.
    rewrite decide_True by assumption. reflexivity. }
  repeat split; apply H; unfold allowedOrigins; apply elem_of_app; left;
    repeat first [apply list_elem_of_here | apply list_elem_of_further].
Qed.

(** X3: the origin built from the local address is a development origin
    only.  In a development environment with a local address it is allowed;
    in any other environment it is rejected, unless it happens to be the
    server's own origin. *)
Theorem X3_local_origin_only_in_dev (config : ServerConfig) (localIp : option string)
    (ip : string) :
  ip <> EmptyString ->
  let local := "http://" +:+ ip +:+ ":9000" in
  (config_env config = Dev ->
     allows (origin (corsOptions (allowedOrigins config (Some ip))) (Some local)))
  /\ (config_env config <> Dev -> config_origin config <> local ->
        origin (corsOptions (allowedOrigins config localIp)) (Some local)
        = Callback (Some "Not allowed by CORS") None).
Proof.
  intros Hip local. split.
  - intros Hdev. unfold allows, local.
    rewrite corsOptions_origin_nonempty by discriminate.
    rewrite decide_True; [reflexivity|].
    unfold allowedOrigins. rewrite decide_True by exact Hdev.
    destruct ip as [|c ip']; [congruence|]. simpl JS.truthy. cbv iota.
    apply elem_of_app. right. apply list_elem_of_here.
  - intros Hdev Hown. unfold local in *.
    rewrite corsOptions_origin_nonempty by discriminate.
    rewrite decide_False; [reflexivity|].
    unfold allowedOrigins. rewrite decide_False by exact Hdev. rewrite app_nil_r.
    rewrite !elem_of_cons, elem_of_nil.
    intros [H|[H|[H|[]]]]; [congruence | discriminate H | discriminate H].
Qed.

End Gatekeeper.

(** *** The gatekeeper on a production configuration *)

(** A stand-in for the [GameEnv] enumeration, to run the gatekeeper on. *)
Inductive SampleEnv := SampleDev | SampleProd.

#[local] Instance SampleEnv_eq_dec : EqDecision SampleEnv.
Proof. solve_decision. Defined.

Definition sampleConfig : ServerConfig :=
  {| config_origin := "https://openfront.io"; config_env := SampleProd |}.

Definition sampleOptions : CorsOptions :=
  corsOptions (allowedOrigins SampleDev sampleConfig None).

(** Scenario E. *)
Lemma C6_gatekeeper_witness :
  allows (origin sampleOptions None)
  /\ (allows (origin sampleOptions (Some "https://openfront.io"))
      /\ credentials sampleOptions = true)
  /\ origin sampleOptions (Some "https://evil.example")
     = Callback (Some "Not allowed by CORS") None.
Proof.
  destruct (C6_gatekeeper_decision SampleDev sampleConfig None None) as (H1 & _ & _).
  destruct (C6_gatekeeper_decision SampleDev sampleConfig None
              (Some "https://openfront.io")) as (_ & H2 & _).
  destruct (C6_gatekeeper_decision SampleDev sampleConfig None
              (Some "https://evil.example")) as (_ & _ & H3).
  split; [apply H1; left; reflexivity|].
  split.
  - apply (H2 "https://openfront.io"); [reflexivity | discriminate |].
    apply list_elem_of_In. simpl. auto.
  - apply (H3 "https://evil.example"); [reflexivity | discriminate |].
    intros H. apply list_elem_of_In in H. simpl in H. intuition discriminate.
Defined.

(** C6 as stated fails on an Origin header that is present and empty: it
    is no element of the allow-list, and the gatekeeper allows it. *)
Lemma C6_empty_origin_is_allowed :
  (EmptyString ∉ allowedOrigins SampleDev sampleConfig None)
  /\ allows (origin sampleOptions (Some EmptyString))
  /\ ~ rejects (origin sampleOptions (Some EmptyString)).
Proof.
  split.
  { intros H. apply list_elem_of_In in H. simpl in H. intuition discriminate. }
  split; [reflexivity|].
  intros [msg H]. discriminate H.
Qed.

Lemma X3_local_origin_witness :
  (SampleDev = SampleDev ->
     allows (origin (corsOptions (allowedOrigins SampleDev
                       {| config_origin := "http://localhost:9000"; config_env := SampleDev |}
                       (Some "192.168.1.5")))
               (Some "http://192.168.1.5:9000")))
  /\ (SampleProd <> SampleDev ->
      "https://openfront.io" <> "http://192.168.1.5:9000" ->
      origin (corsOptions (allowedOrigins SampleDev sampleConfig (Some "192.168.1.5")))
        (Some "http://192.168.1.5:9000")
      = Callback (Some "Not allowed by CORS") None).
Proof.
  split.
  - exact (proj1 (X3_local_origin_only_in_dev SampleDev
             {| config_origin := "http://localhost:9000"; config_env := SampleDev |}
             (Some "192.168.1.5") "192.168.1.5" ltac:(discriminate))).
  - exact (proj2 (X3_local_origin_only_in_dev SampleDev sampleConfig
             (Some "192.168.1.5") "192.168.1.5" ltac:(discriminate))).
Defined.

End Cors.

(** ** The client's session state (src/client/jwt.ts) *)
Module Jwt.

(** *** Values *)

(** A thrown value; the code only ever logs it. *)
Inductive JsError :=
| TypeError (message : string)
| Error (message : string).

Definition error_message (e : JsError) : string :=
  match e with
  | TypeError m => m
  | Error m => m
  end.

(** How an expression or a call completes. *)
Inductive Completion (A : Type) :=
| Normal (a : A)
| Throw (e : JsError).
Arguments Normal {A} a.
Arguments Throw {A} e.

(** A [fetch] call: the URL and the members of its init object. *)
Record Request := {
  url : string;
  method : string;
  headers : list (string * string);
  body : option (list (string * string))   (* the object given to JSON.stringify *)
}.

(** What the code reads of a [Response]. *)
Record Response := {
  status : Z;
  statusText : string
}.

(** [response.ok]: the status is in the range 200..299. *)
Definition ok (r : Response) : bool := (200 <=? status r) && (status r <=? 299).

(** What an [async] function is suspended on. *)
Inductive Awaited :=
| AwaitFetch (req : Request)
| AwaitJson
| AwaitBrowserClose.

(** The promise an [async] function has returned when control comes back to
    its caller: settled already, or suspended at an [await]. *)
Inductive Promise (A : Type) :=
| Fulfilled (a : A)
| Rejected (e : JsError)
| Pending (on : Awaited).
Arguments Fulfilled {A} a.
Arguments Rejected {A} e.
Arguments Pending {A} on.

(** Everything the module does to the world outside its own variables, in
    the order it does it. *)
Inductive Event :=
| Fetch (req : Request)
| DecodeJwt (token : string)
| ConsoleError (msg : string)
| ConsoleLog (msg : string)
| HistoryReplaceState (newUrl : string)
| BrowserClose
| LocationAssign (newUrl : string)
| AddListener (eventName : string).

(** [window.location]. *)
Record Location := {
  hostname : string;   (* new URL(window.location.href).hostname *)
  pathname : string;
  search : string;
  hash : string;
  origin : string
}.

(** The build-time and platform constants. *)
Record Env := {
  platform : string;                              (* Capacitor.getPlatform() *)
  CAPACITOR_PRODUCTION_HOSTNAME : option string;  (* process.env.* *)
  API_BASE_URL : option string
}.

(** The [aud] claim of jose's [JWTPayload]: [string | string[]]. *)
Inductive Audience :=
| AudString (s : string)
| AudArray (ss : list string).

(** The double quote character, for the log messages that hold one. *)
Definition dq : string := String (ascii_of_nat 34) EmptyString.

Definition refreshAge : Z := 6 * 3600.

Section Client.

(** [TokenPayload] and the zod schemas come from core/ApiSchemas, [decodeJwt]
    from jose, URL parsing from the platform.  [OtherClaims] stands for the
    members of a decoded payload besides the four registered claims the code
    reads; [Json] for a parsed response body. *)
Context {TokenPayload OtherClaims Json : Type}.

(** jose's [JWTPayload]. *)
Record JWTPayload := {
  iss : option string;
  aud : option Audience;
  exp : option Z;
  iat : option Z;
  other : OtherClaims
}.

(** [decodeJwt(token)]; [None] when it throws. *)
Variable decodeJwt : string -> option JWTPayload.
(** [TokenPayloadSchema.safeParse(payload)]: [result.data] on success. *)
Variable TokenPayloadSchema_safeParse : JWTPayload -> option TokenPayload.
(** [RefreshResponseSchema.safeParse(body)]: [result.data.token] on success. *)
Variable RefreshResponseSchema_safeParse : Json -> option string.
(** [new URLSearchParams(s)] as its list of pairs. *)
Variable URLSearchParams : string -> list (string * string).
(** How the platform resolves a target that begins with [//] (it names a
    host) against the page: the new path when the target stays on the
    page's origin, [None] when it leaves it. *)
Variable same_origin_path : Location -> string -> option string.
(** [new URL(s).searchParams]; [None] when [new URL] throws. *)
Variable URL_searchParams : string -> option (list (string * string)).
(** [const { token } = body] followed by the test [if (token)]: throws when
    the body cannot be destructured, [None] when the member is missing or
    falsy, otherwise the string [localStorage.setItem] stores for it. *)
Variable body_token : Json -> Completion (option string).

Variable env : Env.

(** [const isNative = Capacitor.getPlatform() !== "web"]. *)
Definition isNative : bool := negb (String.eqb (platform env) "web").

Inductive IsLoggedInResponse :=
| LoggedIn (token : string) (claims : TokenPayload)
| LoggedOut.   (* false *)

(** *** The state the module reads and writes *)
Record State := {
  localStorage : gmap string string;
  __isLoggedIn : option IsLoggedInResponse;   (* None: undefined *)
  location : Location;
  Date_now : Z;                               (* milliseconds *)
  trace : list Event
}.

Definition with_localStorage (f : gmap string string -> gmap string string) (s : State) : State :=
  {| localStorage := f (localStorage s); __isLoggedIn := __isLoggedIn s;
     location := location s; Date_now := Date_now s; trace := trace s |}.

Definition with___isLoggedIn (v : option IsLoggedInResponse) (s : State) : State :=
  {| localStorage := localStorage s; __isLoggedIn := v;
     location := location s; Date_now := Date_now s; trace := trace s |}.

Definition with_hash (h : string) (s : State) : State :=
  {| localStorage := localStorage s; __isLoggedIn := __isLoggedIn s;
     location := {| hostname := hostname (location s); pathname := pathname (location s);
                    search := search (location s); hash := h; origin := origin (location s) |};
     Date_now := Date_now s; trace := trace s |}.

Definition with_pathname (p : string) (s : State) : State :=
  {| localStorage := localStorage s; __isLoggedIn := __isLoggedIn s;
     location := {| hostname := hostname (location s); pathname := p;
                    search := search (location s); hash := hash (location s);
                    origin := origin (location s) |};
     Date_now := Date_now s; trace := trace s |}.

Definition with_event (ev : Event) (s : State) : State :=
  {| localStorage := localStorage s; __isLoggedIn := __isLoggedIn s;
     location := location s; Date_now := Date_now s; trace := trace s ++ [ev] |}.

(** The requests sent so far. *)
Definition fetches (s : State) : list Request :=
  omap (fun ev => match ev with Fetch req => Some req | _ => None end) (trace s).

(** The tokens decoded so far. *)
Definition decodes (s : State) : list string :=
  omap (fun ev => match ev with DecodeJwt t => Some t | _ => None end) (trace s).

(** *** Synchronous code: state and exceptions *)
Definition M (A : Type) : Type := State -> Completion A * State.

#[local] Instance M_ret : MRet M := fun A a s => (Normal a, s).
#[local] Instance M_bind : MBind M := fun A B k m s =>
  match m s with
  | (Normal a, s') => k a s'
  | (Throw e, s') => (Throw e, s')
  end.

Definition throw {A} (e : JsError) : M A := fun s => (Throw e, s).

(** [try { m } catch (e) { h e }]. *)
Definition try_catch {A} (m : M A) (h : JsError -> M A) : M A := fun s =>
  match m s with
  | (Normal a, s') => (Normal a, s')
  | (Throw e, s') => h e s'
  end.

Definition gets {A} (f : State -> A) : M A := fun s => (Normal (f s), s).
Definition modify (f : State -> State) : M unit := fun s => (Normal tt, f s).
Definition emit (ev : Event) : M unit := modify (with_event ev).

(** The body of an [async] function up to the point where control returns
    to the caller: an exception becomes a rejected promise. *)
Definition async {A} (m : M (Promise A)) : State -> Promise A * State := fun s =>
  match m s with
  | (Normal p, s') => (p, s')
  | (Throw e, s') => (Rejected e, s')
  end.

(** Calling an [async] function from synchronous code never throws. *)
Definition call {A} (f : State -> Promise A * State) : M (Promise A) := fun s =>
  let (p, s') := f s in (Normal p, s').

(** *** The platform *)
Definition localStorage_getItem (k : string) : M (option string) :=
  gets (fun s => localStorage s !! k).
Definition localStorage_setItem (k v : string) : M unit :=
  modify (with_localStorage (insert k v)).
Definition localStorage_removeItem (k : string) : M unit :=
  modify (with_localStorage (delete k)).

Definition console_error (msg : string) : M unit := emit (ConsoleError msg).
Definition console_log (msg : string) : M unit := emit (ConsoleLog msg).

(** [history.replaceState(null, "", u)] with [u] the page's own path and
    query.  The target has no fragment, so the new address has none.  A
    target that begins with [//] names a host: the call throws a
    SecurityError when that leaves the page's origin, and changes nothing
    then; otherwise the path is the one the target resolves to. *)
Definition history_replaceState (u : string) : M unit :=
  if JS.startsWith "//" u then
    page ← gets location;
    match same_origin_path page u with
    | None => throw (Error "SecurityError")
    | Some path =>
        emit (HistoryReplaceState u);;
        modify (with_pathname path);;
        modify (with_hash EmptyString)
    end
  else emit (HistoryReplaceState u);; modify (with_hash EmptyString).

(** [fetch(url, init)]: the request leaves when [fetch] is called. *)
Definition fetch (req : Request) : M Awaited :=
  emit (Fetch req);; mret (AwaitFetch req).

Definition Browser_close : M Awaited :=
  emit BrowserClose;; mret AwaitBrowserClose.

(** [Math.floor(Date.now() / 1000)]. *)
Definition now (s : State) : Z := Date_now s / 1000.

(** *** jwt.ts *)

Definition getAudience : M string := fun s =>
  let hostname := JS.or_else (CAPACITOR_PRODUCTION_HOSTNAME env) (hostname (location s)) in
  let domainname := JS.join "." (JS.slice_last 2 (JS.split "." hostname)) in
  (Normal domainname, s).

(** The condition of the inner conditional of [getApiBase]:
    [localStorage.getItem("apiHost") ?? (isNative && process.env.API_BASE_URL)],
    as a truth value. *)
Definition apiHost_or_native (apiHost : option string) : bool :=
  match apiHost with
  | Some h => JS.truthy h
  | None => isNative && JS.truthy_opt (API_BASE_URL env)
  end.

Definition getApiBase : M string :=
  domainname ← getAudience;
  if String.eqb domainname "localhost" then
    apiHost ← localStorage_getItem "apiHost";
    if apiHost_or_native apiHost then
      match API_BASE_URL env with
      | Some base => mret (JS.replace "9000" "8787" base)
      | None => throw (TypeError "Cannot read properties of undefined (reading 'replace')")
      end
    else mret "http://localhost:8787"
  else mret ("https://api." +:+ domainname).

Definition getToken : M (option string) :=
  hash ← gets (fun s => hash (location s));
  (if JS.startsWith "#" hash then
     let params := URLSearchParams (JS.slice 1 hash) in
     let token := JS.searchParams_get "token" params in
     match token with
     | Some token =>
         if JS.truthy token then localStorage_setItem "token" token else mret tt
     | None => mret tt
     end;;
     (* Clean the URL *)
     pathname ← gets (fun s => pathname (location s));
     search ← gets (fun s => search (location s));
     history_replaceState (pathname +:+ search)
   else mret tt);;
  localStorage_getItem "token".

(** [logOut(allSessions)] up to its [await fetch(...)].  The function returns
    [undefined] ([None]) when there is no token. *)
Definition logOut (allSessions : bool) : State -> Promise (option bool) * State :=
  async (
    token ← localStorage_getItem "token";
    match token with
    | None => mret (Fulfilled None)
    | Some token =>
        localStorage_removeItem "token";;
        modify (with___isLoggedIn (Some LoggedOut));;
        apiBase ← getApiBase;
        on ← fetch {| url := apiBase +:+ (if allSessions then "/revoke" else "/logout");
                      method := "POST";
                      headers := [("authorization", "Bearer " +:+ token)];
                      body := None |};
        mret (Pending on)
    end).

(** [logOut] from the point where its [fetch] has settled. *)
Definition logOut_afterFetch (answer : Completion Response)
  : State -> Promise (option bool) * State :=
  async (
    match answer with
    | Throw e => throw e
    | Normal response =>
        if negb (ok response) then
          console_error "Logout failed";;
          mret (Fulfilled (Some false))
        else mret (Fulfilled (Some true))
    end).

(** The [catch] block of [postRefresh]. *)
Definition postRefresh_catch (e : JsError) : M (Promise bool) :=
  modify (with___isLoggedIn (Some LoggedOut));;
  mret (Fulfilled false).

(** [postRefresh()] up to its [await fetch(...)]. *)
Definition postRefresh : State -> Promise bool * State :=
  async (try_catch (
    token ← getToken;
    if negb (JS.truthy_opt token) then mret (Fulfilled false)
    else
      let token := default EmptyString token in
      (* Refresh the JWT *)
      apiBase ← getApiBase;
      on ← fetch {| url := apiBase +:+ "/refresh";
                    method := "POST";
                    headers := [("authorization", "Bearer " +:+ token)];
                    body := None |};
      mret (Pending on)) postRefresh_catch).

(** [postRefresh] from the point where its [fetch] has settled, up to
    [await response.json()]. *)
Definition postRefresh_afterFetch (answer : Completion Response)
  : State -> Promise bool * State :=
  async (try_catch (
    match answer with
    | Throw e => throw e
    | Normal response =>
        if negb (status response =? 200) then mret (Fulfilled false)
        else mret (Pending AwaitJson)
    end) postRefresh_catch).

(** [postRefresh] from the point where [response.json()] has settled. *)
Definition postRefresh_afterJson (answer : Completion Json)
  : State -> Promise bool * State :=
  async (try_catch (
    match answer with
    | Throw e => throw e
    | Normal body =>
        match RefreshResponseSchema_safeParse body with
        | None =>
            console_error "Invalid response";;
            mret (Fulfilled false)
        | Some token =>
            localStorage_setItem "token" token;;
            mret (Fulfilled true)
        end
    end) postRefresh_catch).

(** The callback [_isLoggedIn] attaches to the promise of [postRefresh]; it
    runs once that promise is fulfilled, never inside [_isLoggedIn]. *)
Definition postRefresh_then (success : bool) : M unit :=
  if success then console_log "Refreshed access token successfully."
  else console_error "Failed to refresh access token.".

(** [iss !== apiBase]. *)
Definition iss_differs (iss : option string) (apiBase : string) : bool :=
  match iss with
  | Some i => negb (String.eqb i apiBase)
  | None => true
  end.

(** [aud !== audience]: an array is never strictly equal to a string. *)
Definition aud_differs (aud : option Audience) (audience : string) : bool :=
  match aud with
  | Some (AudString a) => negb (String.eqb a audience)
  | Some (AudArray _) => true
  | None => true
  end.

(** [exp !== undefined && now >= exp]. *)
Definition is_expired (exp : option Z) (now : Z) : bool :=
  match exp with
  | Some e => e <=? now
  | None => false
  end.

(** [iat !== undefined && now >= iat + refreshAge]. *)
Definition refresh_due (iat : option Z) (now : Z) : bool :=
  match iat with
  | Some i => i + refreshAge <=? now
  | None => false
  end.

Definition _isLoggedIn : M IsLoggedInResponse :=
  try_catch (
    token ← getToken;
    if negb (JS.truthy_opt token) then mret LoggedOut
    else
      let token := default EmptyString token in
      (* Decode the JWT *)
      emit (DecodeJwt token);;
      payload ← match decodeJwt token with
                | Some payload => mret payload
                | None => throw (Error "Invalid JWT")
                end;
      apiBase ← getApiBase;
      if iss_differs (iss payload) apiBase && negb isNative then
        (* JWT was not issued by the correct server *)
        console_error ("unexpected " +:+ dq +:+ "iss" +:+ dq +:+ " claim value");;
        call (logOut false);;
        mret LoggedOut
      else
        audience ← getAudience;
        if aud_differs (aud payload) audience then
          (* JWT was not issued for this website *)
          console_error ("unexpected " +:+ dq +:+ "aud" +:+ dq +:+ " claim value");;
          call (logOut false);;
          mret LoggedOut
        else
          now ← gets now;
          if is_expired (exp payload) now then
            (* JWT expired *)
            console_error ("after " +:+ dq +:+ "exp" +:+ dq +:+ " claim value");;
            call (logOut false);;
            mret LoggedOut
          else
            (if refresh_due (iat payload) now then
               console_log "Refreshing access token...";;
               call postRefresh;;
               mret tt
             else mret tt);;
            match TokenPayloadSchema_safeParse payload with
            | None =>
                (* Invalid response *)
                console_error "Invalid payload";;
                mret LoggedOut
            | Some claims => mret (LoggedIn token claims)
            end)
    (fun e => console_log (error_message e);; mret LoggedOut).

Definition isLoggedIn : M IsLoggedInResponse :=
  memo ← gets __isLoggedIn;
  match memo with
  | None =>
      result ← _isLoggedIn;
      modify (with___isLoggedIn (Some result));;
      mret result
  | Some result => mret result
  end.

(** *** The native callback listener *)

(** The [catch] block of the [appUrlOpen] listener, up to its
    [await Browser.close()]. *)
Definition appUrlOpen_catch (e : JsError) : M (Promise unit) :=
  console_error "Error handling appUrlOpen";;
  on ← Browser_close;
  mret (Pending on).

(** The listener from the point where the [Browser.close()] of its [catch]
    block has settled. *)
Definition appUrlOpen_afterCatchClose (answer : Completion unit)
  : State -> Promise unit * State :=
  async (
    match answer with
    | Throw e => throw e
    | Normal _ => mret (Fulfilled tt)
    end).

(** The listener [initializeAuthListener] registers, up to its first
    [await]. *)
Definition appUrlOpen (data_url : string) : State -> Promise unit * State :=
  async (try_catch (
    url ← match URL_searchParams data_url with
          | Some searchParams => mret searchParams
          | None => throw (TypeError "Invalid URL")
          end;
    let code := JS.searchParams_get "code" url in
    let state := JS.searchParams_get "state" url in
    let error := JS.searchParams_get "error" url in
    if JS.truthy_opt error then
      console_error "Error from auth provider:";;
      on ← Browser_close;
      mret (Pending on)
    else if JS.truthy_opt code && JS.truthy_opt state then
      let redirectUri :=
        default "undefined" (API_BASE_URL env) +:+ "/discord-redirect.html" in
      apiBase ← getApiBase;
      on ← fetch {| url := apiBase +:+ "/mobile/callback";
                    method := "POST";
                    headers := [("Content-Type", "application/json")];
                    body := Some [("code", default EmptyString code);
                                  ("state", default EmptyString state);
                                  ("redirect_uri", redirectUri)] |};
      mret (Pending on)
    else mret (Fulfilled tt)) appUrlOpen_catch).

(** The listener from the point where the [Browser.close()] after an
    [error] parameter, or after a response without a token, has settled. *)
Definition appUrlOpen_afterClose (answer : Completion unit)
  : State -> Promise unit * State :=
  async (try_catch (
    match answer with
    | Throw e => throw e
    | Normal _ => mret (Fulfilled tt)
    end) appUrlOpen_catch).

(** The listener from the point where its [fetch] has settled, up to
    [await response.json()]. *)
Definition appUrlOpen_afterFetch (answer : Completion Response)
  : State -> Promise unit * State :=
  async (try_catch (
    match answer with
    | Throw e => throw e
    | Normal response =>
        if negb (ok response) then
          throw (Error ("Failed to exchange code for token: " +:+ statusText response))
        else mret (Pending AwaitJson)
    end) appUrlOpen_catch).

(** The listener from the point where [response.json()] has settled. *)
Definition appUrlOpen_afterJson (answer : Completion Json)
  : State -> Promise unit * State :=
  async (try_catch (
    match answer with
    | Throw e => throw e
    | Normal body =>
        match body_token body with
        | Throw e => throw e
        | Normal (Some token) =>
            localStorage_setItem "token" token;;
            modify (with___isLoggedIn None);;
            on ← Browser_close;
            mret (Pending on)
        | Normal None =>
            console_error "No token found in response";;
            on ← Browser_close;
            mret (Pending on)
        end
    end) appUrlOpen_catch).

(** The listener from the point where the [Browser.close()] after storing
    the token has settled. *)
Definition appUrlOpen_afterStoreClose (answer : Completion unit)
  : State -> Promise unit * State :=
  async (try_catch (
    match answer with
    | Throw e => throw e
    | Normal _ =>
        origin ← gets (fun s => origin (location s));
        emit (LocationAssign (JS.or_else (Some origin) "/"));;
        mret (Fulfilled tt)
    end) appUrlOpen_catch).

Definition initializeAuthListener : M unit :=
  if String.eqb (platform env) "web" then mret tt
  else emit (AddListener "appUrlOpen").

(** *** Running an [async] function to its end *)

(** [postRefresh()] when nothing else runs between its suspension points:
    [net] is how the request settles, [parsed] how [response.json()] does. *)
Definition postRefresh_run (net : Completion Response) (parsed : Completion Json)
  : State -> Promise bool * State := fun s =>
  match postRefresh s with
  | (Pending (AwaitFetch _), s1) =>
      match postRefresh_afterFetch net s1 with
      | (Pending AwaitJson, s2) => postRefresh_afterJson parsed s2
      | settled => settled
      end
  | settled => settled
  end.

(** [logOut(allSessions)] when nothing else runs while it is suspended. *)
Definition logOut_run (allSessions : bool) (net : Completion Response)
  : State -> Promise (option bool) * State := fun s =>
  match logOut allSessions s with
  | (Pending (AwaitFetch _), s1) => logOut_afterFetch net s1
  | settled => settled
  end.

(** *** Requests and states the properties speak of *)

Definition logoutRequest (apiBase token : string) : Request :=
  {| url := apiBase +:+ "/logout"; method := "POST";
     headers := [("authorization", "Bearer " +:+ token)]; body := None |}.

Definition refreshRequest (apiBase token : string) : Request :=
  {| url := apiBase +:+ "/refresh"; method := "POST";
     headers := [("authorization", "Bearer " +:+ token)]; body := None |}.

(** The state after the Logout Flow has been triggered from the validator. *)
Definition after_logOut (msg apiBase tok : string) (s : State) : State :=
  with_event (Fetch (logoutRequest apiBase tok))
    (with___isLoggedIn (Some LoggedOut)
       (with_localStorage (delete "token") (with_event (ConsoleError msg) s))).

(** The state after the refresh has been dispatched from the validator. *)
Definition after_refresh_dispatch (apiBase tok : string) (s : State) : State :=
  with_event (Fetch (refreshRequest apiBase tok))
    (with_event (ConsoleLog "Refreshing access token...") s).

Definition claim_message (claim : string) : string :=
  "unexpected " +:+ dq +:+ claim +:+ dq +:+ " claim value".

(** How [logOut] tells its caller that the logout failed: it returns
    [false], or its promise is rejected. *)
Definition signals_failure (p : Promise (option bool)) : Prop :=
  p = Fulfilled (Some false) \/ exists e, p = Rejected e.

(** Two states that [getApiBase] and [getAudience] cannot tell apart. *)
Definition same_host (s s' : State) : Prop :=
  hostname (location s) = hostname (location s')
  /\ localStorage s !! "apiHost" = localStorage s' !! "apiHost".

(** *** Basic facts *)

Ltac monad := unfold console_error, console_log, emit,
  localStorage_getItem, localStorage_setItem, localStorage_removeItem,
  call, async, try_catch, gets, modify, throw, mbind, M_bind, mret, M_ret in *.

Ltac reduce_if :=
  try change (negb true) with false; try change (negb false) with true;
  cbv beta iota.

Lemma fetches_with_event (ev : Event) (s : State) :
  fetches (with_event ev s)
  = (fetches s ++ match ev with Fetch req => [req] | _ => [] end)%list.
Proof.
  unfold fetches, with_event. simpl. rewrite omap_app. simpl.
  destruct ev; reflexivity.
Qed.

Lemma same_host_refl (s : State) : same_host s s.
Proof. split; reflexivity. Qed.

Lemma same_host_trans (s1 s2 s3 : State) :
  same_host s1 s2 -> same_host s2 s3 -> same_host s1 s3.
Proof. intros [H1 H2] [H3 H4]. split; congruence. Qed.

Lemma getAudience_frame (s s' : State) :
  same_host s s' -> getAudience s' = (fst (getAudience s), s').
Proof. intros [Hh _]. unfold getAudience. simpl. rewrite Hh. reflexivity. Qed.

Lemma getApiBase_frame (s s' : State) :
  same_host s s' -> getApiBase s' = (fst (getApiBase s), s').
Proof.
  intros [Hh Ha]. unfold getApiBase, getAudience. monad. simpl.
  rewrite Hh.
  destruct (String.eqb _ "localhost"); [|reflexivity].
  simpl. rewrite Ha.
  destruct (apiHost_or_native _); [|reflexivity].
  destruct (API_BASE_URL env); reflexivity.
Qed.

Lemma getApiBase_state (s : State) : getApiBase s = (fst (getApiBase s), s).
Proof. apply getApiBase_frame, same_host_refl. Qed.

Lemma same_host_with_event (ev : Event) (s : State) : same_host s (with_event ev s).
Proof. split; reflexivity. Qed.

Lemma same_host_with_memo (v : option IsLoggedInResponse) (s : State) :
  same_host s (with___isLoggedIn v s).
Proof. split; reflexivity. Qed.

Lemma same_host_with_hash (h : string) (s : State) : same_host s (with_hash h s).
Proof. split; reflexivity. Qed.

Lemma same_host_set_token (v : string) (s : State) :
  same_host s (with_localStorage (insert "token" v) s).
Proof. split; [reflexivity|]. simpl. rewrite lookup_insert_ne; [reflexivity | discriminate]. Qed.

Lemma same_host_remove_token (s : State) :
  same_host s (with_localStorage (delete "token") s).
Proof. split; [reflexivity|]. simpl. rewrite lookup_delete_ne; [reflexivity | discriminate]. Qed.

Create HintDb jwt.
#[local] Hint Resolve same_host_refl same_host_with_event same_host_with_memo
  same_host_with_hash same_host_set_token same_host_remove_token : jwt.

(** What [getToken] leaves alone, however it completes. *)
Definition getToken_frame (s s1 : State) : Prop :=
  __isLoggedIn s1 = __isLoggedIn s
  /\ fetches s1 = fetches s
  /\ decodes s1 = decodes s
  /\ Date_now s1 = Date_now s
  /\ same_host s s1.

Lemma getToken_frame_refl (s : State) : getToken_frame s s.
Proof. repeat split. Qed.

Lemma getToken_frame_trans (s1 s2 s3 : State) :
  getToken_frame s1 s2 -> getToken_frame s2 s3 -> getToken_frame s1 s3.
Proof.
  intros (A1 & A2 & A3 & A4 & A5) (B1 & B2 & B3 & B4 & B5).
  unfold same_host in *. destruct A5, B5. repeat split; congruence.
Qed.

Lemma getToken_frame_set_token (v : string) (s : State) :
  getToken_frame s (with_localStorage (insert "token" v) s).
Proof.
  repeat split. simpl. rewrite lookup_insert_ne; [reflexivity | discriminate].
Qed.

(** [history.replaceState] either throws and changes nothing, or returns
    with nothing left of the fragment. *)
Lemma history_replaceState_cases (u : string) (s : State) :
  (exists e, history_replaceState u s = (Throw e, s))
  \/ (exists s1, history_replaceState u s = (Normal tt, s1)
                 /\ hash (location s1) = EmptyString
                 /\ localStorage s1 = localStorage s
                 /\ getToken_frame s s1).
Proof.
  unfold history_replaceState.
  assert (Hev : forall s0 : State,
            fetches (with_event (HistoryReplaceState u) s0) = fetches s0
            /\ decodes (with_event (HistoryReplaceState u) s0) = decodes s0).
  { intros s0. unfold fetches, decodes. simpl. rewrite !omap_app, !app_nil_r. auto. }
  destruct (JS.startsWith "//" u).
  - monad. destruct (same_origin_path (location s) u) as [path|].
    + right. eexists. split; [reflexivity|]. simpl.
      repeat split; try apply (Hev s).
    + left. eexists. reflexivity.
  - right. monad. eexists. split; [reflexivity|]. simpl.
    repeat split; try apply (Hev s).
Qed.

(** [getToken] either returns what the store holds under "token" once a
    token delivered in the fragment has been stored, leaving no fragment
    behind, or throws out of [history.replaceState]. *)
Lemma getToken_spec (s : State) :
  (exists s1,
     getToken s = (Normal (localStorage s1 !! "token"), s1)
     /\ JS.startsWith "#" (hash (location s1)) = false
     /\ getToken_frame s s1)
  \/ (exists e s1, getToken s = (Throw e, s1) /\ getToken_frame s s1).
Proof.
  unfold getToken. monad. simpl.
  destruct (JS.startsWith "#" (hash (location s))) eqn:Hhash.
  2:{ left. exists s. split; [reflexivity|]. split; [exact Hhash|].
      apply getToken_frame_refl. }
  assert (Hclean : forall s0 : State, getToken_frame s s0 ->
            (exists s1,
               match history_replaceState
                       (pathname (location s0) +:+ search (location s0)) s0 with
               | (Normal _, s') => (Normal (localStorage s' !! "token"), s')
               | (Throw e, s') => (@Throw (option string) e, s')
               end = (Normal (localStorage s1 !! "token"), s1)
               /\ JS.startsWith "#" (hash (location s1)) = false
               /\ getToken_frame s s1)
            \/ (exists e s1,
               match history_replaceState
                       (pathname (location s0) +:+ search (location s0)) s0 with
               | (Normal _, s') => (Normal (localStorage s' !! "token"), s')
               | (Throw e, s') => (@Throw (option string) e, s')
               end = (Throw e, s1) /\ getToken_frame s s1)).
  { intros s0 Hframe0.
    destruct (history_replaceState_cases
                (pathname (location s0) +:+ search (location s0)) s0)
      as [(e & ->) | (s1 & -> & Hh & Hls & Hframe1)].
    - right. exists e, s0. split; [reflexivity | exact Hframe0].
    - left. exists s1. split; [reflexivity|]. split.
      + rewrite Hh. reflexivity.
      + eapply getToken_frame_trans; eassumption. }
  destruct (JS.searchParams_get "token" _) as [t|]; [destruct (JS.truthy t)|].
  - apply (Hclean (with_localStorage (insert "token" t) s)).
    apply getToken_frame_set_token.
  - apply (Hclean s), getToken_frame_refl.
  - apply (Hclean s), getToken_frame_refl.
Qed.

Lemma getToken_no_fragment (s : State) :
  JS.startsWith "#" (hash (location s)) = false ->
  getToken s = (Normal (localStorage s !! "token"), s).
Proof. intros H. unfold getToken. monad. simpl. rewrite H. reflexivity. Qed.

Lemma getToken_any (s s1 : State) (r : Completion (option string)) :
  getToken s = (r, s1) -> getToken_frame s s1.
Proof.
  intros H.
  destruct (getToken_spec s) as [(s1' & E & _ & F) | (e & s1' & E & F)];
    rewrite E in H; injection H as <- <-; exact F.
Qed.

Lemma getToken_inv (s s1 : State) (v : option string) :
  getToken s = (Normal v, s1) ->
  Normal v = Normal (localStorage s1 !! "token")
  /\ JS.startsWith "#" (hash (location s1)) = false
  /\ __isLoggedIn s1 = __isLoggedIn s
  /\ fetches s1 = fetches s
  /\ decodes s1 = decodes s
  /\ Date_now s1 = Date_now s
  /\ same_host s s1.
Proof.
  intros H.
  destruct (getToken_spec s) as [(s1' & E & Hh & F) | (e & s1' & E & _)];
    rewrite E in H; [|discriminate].
  injection H as Hv Hs. subst v s1'. split; [reflexivity|].
  split; [exact Hh | exact F].
Qed.

(** [logOut] with a token in the store: the token is removed, the memo is
    set to [false] and one POST leaves, with the removed token as bearer. *)
Lemma logOut_with_token (allSessions : bool) (s : State) (tok apiBase : string) :
  localStorage s !! "token" = Some tok ->
  getApiBase s = (Normal apiBase, s) ->
  let req := {| url := apiBase +:+ (if allSessions then "/revoke" else "/logout");
                method := "POST";
                headers := [("authorization", "Bearer " +:+ tok)];
                body := None |} in
  logOut allSessions s
  = (Pending (AwaitFetch req),
     with_event (Fetch req)
       (with___isLoggedIn (Some LoggedOut) (with_localStorage (delete "token") s))).
Proof.
  intros Htok Hbase req. unfold logOut, fetch. monad. simpl. rewrite Htok. simpl.
  rewrite (getApiBase_frame s) by (eapply same_host_trans; eauto with jwt).
  rewrite Hbase. reflexivity.
Qed.

(** jose decodes no empty token: a compact JWT has three parts. *)
Hypothesis decodeJwt_empty : decodeJwt EmptyString = None.

Lemma decoded_token_truthy (tok : string) (payload : JWTPayload) :
  decodeJwt tok = Some payload -> JS.truthy tok = true.
Proof. destruct tok; [rewrite decodeJwt_empty; discriminate | reflexivity]. Qed.

(** [postRefresh] with a token to send: the refresh POST leaves and the
    function suspends. *)
Lemma postRefresh_sends (s s1 : State) (tok apiBase : string) :
  getToken s = (Normal (Some tok), s1) ->
  JS.truthy tok = true ->
  getApiBase s1 = (Normal apiBase, s1) ->
  postRefresh s
  = (Pending (AwaitFetch (refreshRequest apiBase tok)),
     with_event (Fetch (refreshRequest apiBase tok)) s1).
Proof.
  intros Htok Htruthy Hbase. unfold postRefresh, fetch.
  unfold async, try_catch. unfold mbind at 1, M_bind at 1.
  rewrite Htok.
  change (JS.truthy_opt (Some tok)) with (JS.truthy tok). rewrite Htruthy. simpl.
  monad. rewrite Hbase. reflexivity.
Qed.

Lemma postRefresh_with_token (s : State) (tok apiBase : string) :
  JS.startsWith "#" (hash (location s)) = false ->
  localStorage s !! "token" = Some tok ->
  JS.truthy tok = true ->
  getApiBase s = (Normal apiBase, s) ->
  postRefresh s
  = (Pending (AwaitFetch (refreshRequest apiBase tok)),
     with_event (Fetch (refreshRequest apiBase tok)) s).
Proof.
  intros Hhash Htok Htruthy Hbase. apply postRefresh_sends; try assumption.
  rewrite (getToken_no_fragment s Hhash), Htok. reflexivity.
Qed.

(** What the validator does with a token that decodes, when the API base
    can be computed: the outcome of each check, with the state it leaves. *)
Lemma _isLoggedIn_decoded (s s1 : State) (tok apiBase audience : string)
    (payload : JWTPayload) :
  getToken s = (Normal (Some tok), s1) ->
  decodeJwt tok = Some payload ->
  getApiBase s1 = (Normal apiBase, s1) ->
  getAudience s1 = (Normal audience, s1) ->
  _isLoggedIn s =
    let s2 := with_event (DecodeJwt tok) s1 in
    if iss_differs (iss payload) apiBase && negb isNative then
      (Normal LoggedOut, after_logOut (claim_message "iss") apiBase tok s2)
    else if aud_differs (aud payload) audience then
      (Normal LoggedOut, after_logOut (claim_message "aud") apiBase tok s2)
    else if is_expired (exp payload) (now s1) then
      (Normal LoggedOut,
       after_logOut ("after " +:+ dq +:+ "exp" +:+ dq +:+ " claim value") apiBase tok s2)
    else
      let s3 := if refresh_due (iat payload) (now s1)
                then after_refresh_dispatch apiBase tok s2 else s2 in
      match TokenPayloadSchema_safeParse payload with
      | None => (Normal LoggedOut, with_event (ConsoleError "Invalid payload") s3)
      | Some claims => (Normal (LoggedIn tok claims), s3)
      end.
Proof.
  intros Htok Hdec Hbase Haud.
  pose proof (decoded_token_truthy _ _ Hdec) as Htruthy.
  destruct (getToken_inv _ _ _ Htok) as (Hr & Hhash & _).
  assert (Hstored : localStorage s1 !! "token" = Some tok) by congruence.
  set (s2 := with_event (DecodeJwt tok) s1).
  assert (Hbase2 : forall msg, getApiBase (with_event (ConsoleError msg) s2)
                   = (Normal apiBase, with_event (ConsoleError msg) s2)).
  { intros msg. rewrite (getApiBase_frame s1), Hbase; [reflexivity|].
    split; reflexivity. }
  assert (Hlogout : forall msg,
    logOut false (with_event (ConsoleError msg) s2)
    = (Pending (AwaitFetch (logoutRequest apiBase tok)), after_logOut msg apiBase tok s2)).
  { intros msg. apply (logOut_with_token false); [exact Hstored | apply Hbase2]. }
  unfold _isLoggedIn, try_catch. unfold mbind at 1, M_bind at 1.
  rewrite Htok. change (JS.truthy_opt (Some tok)) with (JS.truthy tok).
  rewrite Htruthy.
  change (default EmptyString (Some tok)) with tok. monad. rewrite Hdec.
  change (negb true) with false. cbv beta iota. fold s2.
  rewrite (getApiBase_frame s1 s2), Hbase by (split; reflexivity). simpl fst.
  cbv beta iota.
  destruct (iss_differs (iss payload) apiBase && negb isNative); cbv beta iota.
  { rewrite Hlogout. reflexivity. }
  rewrite (getAudience_frame s1 s2), Haud by (split; reflexivity). simpl fst.
  cbv beta iota.
  destruct (aud_differs (aud payload) audience); cbv beta iota.
  { rewrite Hlogout. reflexivity. }
  change (now s2) with (now s1).
  destruct (is_expired (exp payload) (now s1)); cbv beta iota.
  { rewrite Hlogout. reflexivity. }
  destruct (refresh_due (iat payload) (now s1)); cbv beta iota.
  - rewrite (postRefresh_with_token _ tok apiBase);
      [| exact Hhash | exact Hstored | exact Htruthy
       | rewrite (getApiBase_frame s1), Hbase; [reflexivity | split; reflexivity] ].
    fold (after_refresh_dispatch apiBase tok s2).
    destruct (TokenPayloadSchema_safeParse payload); reflexivity.
  - destruct (TokenPayloadSchema_safeParse payload); reflexivity.
Qed.

(** When [getApiBase] throws, the validator's [catch] block answers: the
    result is [false], and neither the Logout Flow nor the refresh runs. *)
Lemma _isLoggedIn_without_apiBase (s s1 : State) (tok : string) (payload : JWTPayload)
    (e : JsError) :
  getToken s = (Normal (Some tok), s1) ->
  decodeJwt tok = Some payload ->
  getApiBase s1 = (Throw e, s1) ->
  _isLoggedIn s
  = (Normal LoggedOut,
     with_event (ConsoleLog (error_message e)) (with_event (DecodeJwt tok) s1)).
Proof.
  intros Htok Hdec Hbase.
  pose proof (decoded_token_truthy _ _ Hdec) as Htruthy.
  unfold _isLoggedIn, try_catch. unfold mbind at 1, M_bind at 1.
  rewrite Htok. change (JS.truthy_opt (Some tok)) with (JS.truthy tok).
  rewrite Htruthy.
  change (default EmptyString (Some tok)) with tok. monad. rewrite Hdec.
  reduce_if.
  rewrite (getApiBase_frame s1 (with_event (DecodeJwt tok) s1)), Hbase
    by (split; reflexivity).
  reflexivity.
Qed.

(** The validator when the token read throws: the catch block logs the
    error and answers [false]. *)
Lemma _isLoggedIn_getToken_throws (s s1 : State) (e : JsError) :
  getToken s = (Throw e, s1) ->
  _isLoggedIn s = (Normal LoggedOut, with_event (ConsoleLog (error_message e)) s1).
Proof.
  intros Htok. unfold _isLoggedIn, try_catch. unfold mbind at 1, M_bind at 1.
  rewrite Htok. reflexivity.
Qed.

Lemma getAudience_normal (s : State) : exists audience, getAudience s = (Normal audience, s).
Proof. unfold getAudience. eexists. reflexivity. Qed.

Lemma fetches_after_logOut (msg apiBase tok : string) (s : State) :
  fetches (after_logOut msg apiBase tok s) = (fetches s ++ [logoutRequest apiBase tok])%list.
Proof.
  unfold after_logOut. rewrite fetches_with_event.
  change (fetches (with___isLoggedIn _ (with_localStorage _ (with_event (ConsoleError msg) s))))
    with (fetches (with_event (ConsoleError msg) s)).
  rewrite fetches_with_event, app_nil_r. reflexivity.
Qed.

Lemma fetches_after_refresh_dispatch (apiBase tok : string) (s : State) :
  fetches (after_refresh_dispatch apiBase tok s)
  = (fetches s ++ [refreshRequest apiBase tok])%list.
Proof.
  unfold after_refresh_dispatch. rewrite !fetches_with_event, app_nil_r. reflexivity.
Qed.

Lemma iss_differs_false (i : option string) (apiBase : string) :
  iss_differs i apiBase = false <-> i = Some apiBase.
Proof.
  destruct i as [x|]; simpl; [|split; discriminate].
  destruct (String.eqb_spec x apiBase) as [->|Hne]; simpl; split;
    congruence.
Qed.

Lemma iss_differs_true (i : option string) (apiBase : string) :
  iss_differs i apiBase = true <-> i <> Some apiBase.
Proof.
  rewrite <- iss_differs_false. destruct (iss_differs i apiBase); split; congruence.
Qed.

Lemma aud_differs_false (a : option Audience) (audience : string) :
  aud_differs a audience = false <-> a = Some (AudString audience).
Proof.
  destruct a as [[x|xs]|]; simpl; try (split; discriminate).
  destruct (String.eqb_spec x audience) as [->|Hne]; simpl; split; congruence.
Qed.


Lemma refresh_due_true (i : option Z) (t : Z) :
  refresh_due i t = true <-> exists x, i = Some x /\ x + refreshAge <= t.
Proof.
  destruct i as [x|]; simpl.
  - rewrite Z.leb_le. split; [eauto|]. intros (y & [= <-] & H). exact H.
  - split; [discriminate|]. intros (y & [=] & _).
Qed.

Lemma now_getToken (s s1 : State) (r : Completion (option string)) :
  getToken s = (r, s1) -> now s1 = now s.
Proof.
  intros H. destruct (getToken_any _ _ _ H) as (_ & _ & _ & Hd & _).
  unfold now. rewrite Hd. reflexivity.
Qed.

Lemma string_app_inj (p x y : string) : p +:+ x = p +:+ y -> x = y.
Proof. induction p as [|c p IH]; simpl; [auto|]. intros [= H]. auto. Qed.

(** [_isLoggedIn] catches whatever is thrown: it always returns. *)
Lemma _isLoggedIn_returns (s : State) :
  exists r s', _isLoggedIn s = (Normal r, s').
Proof.
  unfold _isLoggedIn, try_catch.
  match goal with |- context [let (_, _) := ?m s in _] => destruct (m s) as [[r|e] s'] end.
  - eauto.
  - monad. eauto.
Qed.

Lemma isLoggedIn_memoized (s : State) (r : IsLoggedInResponse) :
  __isLoggedIn s = Some r -> isLoggedIn s = (Normal r, s).
Proof. intros H. unfold isLoggedIn. monad. rewrite H. reflexivity. Qed.

Lemma isLoggedIn_unset (s s' : State) (r : IsLoggedInResponse) :
  __isLoggedIn s = None ->
  _isLoggedIn s = (Normal r, s') ->
  isLoggedIn s = (Normal r, with___isLoggedIn (Some r) s').
Proof. intros H E. unfold isLoggedIn. monad. rewrite H, E. reflexivity. Qed.

(** *** The claims *)


(** C2: let the decoded [iss] differ from the computed API base.  In a web
    context validation returns [false], removes the token and sends exactly
    one request, the logout POST.  In a native context the issuer check is
    passed over and the later checks decide: an audience mismatch or an
    expired token ends in the same logout; otherwise the outcome is the one
    of the payload's shape validation, and the only request that can have
    been sent is the refresh POST. *)
Theorem C2_issuer_mismatch (s s1 : State) (tok apiBase audience : string)
    (payload : JWTPayload) :
  getToken s = (Normal (Some tok), s1) ->
  decodeJwt tok = Some payload ->
  getApiBase s1 = (Normal apiBase, s1) ->
  getAudience s1 = (Normal audience, s1) ->
  iss payload <> Some apiBase ->
  (isNative = false ->
     exists s', _isLoggedIn s = (Normal LoggedOut, s')
       /\ localStorage s' !! "token" = None
       /\ fetches s' = (fetches s ++ [logoutRequest apiBase tok])%list)
  /\ (isNative = true ->
        (aud payload <> Some (AudString audience)
         \/ is_expired (exp payload) (now s) = true ->
           exists s', _isLoggedIn s = (Normal LoggedOut, s')
             /\ localStorage s' !! "token" = None
             /\ fetches s' = (fetches s ++ [logoutRequest apiBase tok])%list)
        /\ (aud payload = Some (AudString audience) ->
            is_expired (exp payload) (now s) = false ->
            exists s',
              _isLoggedIn s
              = (Normal match TokenPayloadSchema_safeParse payload with
                        | Some claims => LoggedIn tok claims
                        | None => LoggedOut
                        end, s')
              /\ localStorage s' !! "token" = Some tok
              /\ fetches s'
                 = (fetches s ++ if refresh_due (iat payload) (now s)
                                 then [refreshRequest apiBase tok] else [])%list)).
Proof.
  intros Htok Hdec Hbase Haud Hiss.
  pose proof (_isLoggedIn_decoded _ _ _ _ _ _ Htok Hdec Hbase Haud) as E.
  destruct (getToken_inv _ _ _ Htok) as (Hr & _ & _ & Hf & _).
  assert (Hstored : localStorage s1 !! "token" = Some tok) by congruence.
  rewrite (now_getToken _ _ _ Htok) in E.
  apply iss_differs_true in Hiss. rewrite Hiss in E. cbv zeta in E.
  assert (Hlog : forall msg,
    localStorage (after_logOut msg apiBase tok (with_event (DecodeJwt tok) s1)) !! "token" = None
    /\ fetches (after_logOut msg apiBase tok (with_event (DecodeJwt tok) s1))
       = (fetches s ++ [logoutRequest apiBase tok])%list).
  { intros msg. split; [simpl; apply lookup_delete_eq|].
    rewrite fetches_after_logOut, fetches_with_event, app_nil_r, Hf. reflexivity. }
  split; [|intros Hnative; split].
  - intros Hweb. rewrite Hweb in E. simpl in E. eexists. split; [exact E | apply Hlog].
  - intros Hfail. rewrite Hnative in E. simpl andb in E. cbv iota in E.
    destruct (aud_differs (aud payload) audience) eqn:Ea.
    + eexists. split; [exact E | apply Hlog].
    + destruct Hfail as [Hne | Hexp].
      * apply aud_differs_false in Ea. contradiction.
      * rewrite Hexp in E. eexists. split; [exact E | apply Hlog].
  - intros Ha Hexp. rewrite Hnative in E. simpl andb in E. cbv iota in E.
    apply aud_differs_false in Ha. rewrite Ha, Hexp in E.
    destruct (refresh_due (iat payload) (now s));
      destruct (TokenPayloadSchema_safeParse payload);
      (eexists; split; [exact E|]); (split; [exact Hstored|]);
      repeat (rewrite fetches_after_refresh_dispatch
              || rewrite fetches_with_event
              || rewrite app_nil_r
              || rewrite Hf); reflexivity.
Qed.

(** C3: let the token decode, pass the issuer check (or the context be
    native), pass the audience check and not be expired, and let its [iat]
    lie six hours or more in the past.  Then validation returns the token
    with its parsed claims whenever the payload's shape validates, and
    exactly one request has been sent, the refresh POST.  Validation returns
    while [postRefresh] is still suspended on that request, so no outcome of
    the refresh can alter the value returned. *)
Theorem C3_stale_token_still_logged_in (s s1 : State) (tok apiBase audience : string)
    (payload : JWTPayload) (i : Z) (claims : TokenPayload) :
  getToken s = (Normal (Some tok), s1) ->
  decodeJwt tok = Some payload ->
  getApiBase s1 = (Normal apiBase, s1) ->
  getAudience s1 = (Normal audience, s1) ->
  isNative = true \/ iss payload = Some apiBase ->
  aud payload = Some (AudString audience) ->
  is_expired (exp payload) (now s) = false ->
  iat payload = Some i ->
  i + refreshAge <= now s ->
  TokenPayloadSchema_safeParse payload = Some claims ->
  exists s_dispatch s',
    _isLoggedIn s = (Normal (LoggedIn tok claims), s')
    /\ postRefresh s_dispatch = (Pending (AwaitFetch (refreshRequest apiBase tok)), s')
    /\ fetches s' = (fetches s ++ [refreshRequest apiBase tok])%list
    /\ localStorage s' !! "token" = Some tok.
Proof.
  intros Htok Hdec Hbase Haud Hiss Ha Hexp Hiat Hold Hparse.
  pose proof (_isLoggedIn_decoded _ _ _ _ _ _ Htok Hdec Hbase Haud) as E.
  destruct (getToken_inv _ _ _ Htok) as (Hr & Hhash & _ & Hf & _).
  assert (Hstored : localStorage s1 !! "token" = Some tok) by congruence.
  rewrite (now_getToken _ _ _ Htok) in E.
  assert (Hi : iss_differs (iss payload) apiBase && negb isNative = false).
  { destruct Hiss as [-> | Hi]; [apply andb_false_r|].
    apply iss_differs_false in Hi. rewrite Hi. reflexivity. }
  apply aud_differs_false in Ha.
  assert (Hdue : refresh_due (iat payload) (now s) = true).
  { apply refresh_due_true. eauto. }
  rewrite Hi, Ha, Hexp, Hdue, Hparse in E. cbv zeta in E.
  exists (with_event (ConsoleLog "Refreshing access token...")
            (with_event (DecodeJwt tok) s1)).
  eexists. split; [exact E|]. split; [|split].
  - apply postRefresh_with_token; try assumption.
    + eapply decoded_token_truthy; eauto.
    + rewrite (getApiBase_frame s1), Hbase; [reflexivity | split; reflexivity].
  - rewrite fetches_after_refresh_dispatch, fetches_with_event, app_nil_r, Hf.
    reflexivity.
  - exact Hstored.
Qed.

(** C8: let the token decode, pass the issuer check (or the context be
    native), pass the audience check and not be expired, and let the payload
    fail the shape validation.  Then validation returns [false] and the
    Logout Flow has not run: the token is still in the store, the memo is as
    it was, and the only request that can have been sent is the refresh
    POST, which goes to neither the logout nor the revoke endpoint. *)
Theorem C8_shape_mismatch_keeps_token (s s1 : State) (tok apiBase audience : string)
    (payload : JWTPayload) :
  getToken s = (Normal (Some tok), s1) ->
  decodeJwt tok = Some payload ->
  getApiBase s1 = (Normal apiBase, s1) ->
  getAudience s1 = (Normal audience, s1) ->
  isNative = true \/ iss payload = Some apiBase ->
  aud payload = Some (AudString audience) ->
  is_expired (exp payload) (now s) = false ->
  TokenPayloadSchema_safeParse payload = None ->
  exists s' sent,
    _isLoggedIn s = (Normal LoggedOut, s')
    /\ localStorage s' !! "token" = Some tok
    /\ __isLoggedIn s' = __isLoggedIn s
    /\ fetches s' = (fetches s ++ sent)%list
    /\ sent = (if refresh_due (iat payload) (now s)
               then [refreshRequest apiBase tok] else [])
    /\ Forall (fun req => url req <> apiBase +:+ "/logout"
                          /\ url req <> apiBase +:+ "/revoke") sent.
Proof.
  intros Htok Hdec Hbase Haud Hiss Ha Hexp Hparse.
  pose proof (_isLoggedIn_decoded _ _ _ _ _ _ Htok Hdec Hbase Haud) as E.
  destruct (getToken_inv _ _ _ Htok) as (Hr & Hhash & Hmemo & Hf & _).
  assert (Hstored : localStorage s1 !! "token" = Some tok) by congruence.
  rewrite (now_getToken _ _ _ Htok) in E.
  assert (Hi : iss_differs (iss payload) apiBase && negb isNative = false).
  { destruct Hiss as [-> | Hi]; [apply andb_false_r|].
    apply iss_differs_false in Hi. rewrite Hi. reflexivity. }
  apply aud_differs_false in Ha.
  rewrite Hi, Ha, Hexp, Hparse in E. cbv zeta in E.
  eexists. exists (if refresh_due (iat payload) (now s)
                   then [refreshRequest apiBase tok] else []).
  split; [exact E|].
  destruct (refresh_due (iat payload) (now s)).
  - split; [exact Hstored|]. split; [exact Hmemo|]. split; [|split; [reflexivity|]].
    + rewrite fetches_with_event, app_nil_r.
      rewrite fetches_after_refresh_dispatch, fetches_with_event, app_nil_r, Hf.
      reflexivity.
    + constructor; [|constructor]. simpl.
      split; intros H; apply string_app_inj in H; discriminate H.
  - split; [exact Hstored|]. split; [exact Hmemo|]. split; [|split; [reflexivity|]].
    + rewrite !fetches_with_event, !app_nil_r, Hf. reflexivity.
    + constructor.
Qed.


(** C9: with no token in the store, [logOut(allSessions)] changes nothing
    (store, memo and trace are as they were, so no request has been sent)
    and returns nothing: its promise is fulfilled with [undefined], which is
    neither the [false] of a failed logout nor a rejection. *)
Theorem C9_logOut_without_token (allSessions : bool) (s : State) :
  localStorage s !! "token" = None ->
  logOut allSessions s = (Fulfilled None, s)
  /\ ~ signals_failure (fst (logOut allSessions s))
  /\ forall net, logOut_run allSessions net s = (Fulfilled None, s).
Proof.
  intros H.
  assert (E : logOut allSessions s = (Fulfilled None, s)).
  { unfold logOut. monad. rewrite H. reflexivity. }
  split; [exact E|]. split.
  - rewrite E. intros [Hf | (e & He)]; discriminate.
  - intros net. unfold logOut_run. rewrite E. reflexivity.
Qed.

(** C10: when the opened URL has no [error] parameter and lacks [code] or
    [state], the listener changes nothing: store, memo and trace are as they
    were, so no request has been sent and the browser has not been closed. *)
Theorem C10_callback_without_parameters (data_url : string) (s : State)
    (searchParams : list (string * string)) :
  URL_searchParams data_url = Some searchParams ->
  JS.searchParams_get "error" searchParams = None ->
  JS.searchParams_get "code" searchParams = None
  \/ JS.searchParams_get "state" searchParams = None ->
  appUrlOpen data_url s = (Fulfilled tt, s).
Proof.
  intros Hurl Herr Hmissing. unfold appUrlOpen. monad. rewrite Hurl, Herr.
  change (JS.truthy_opt None) with false. cbv beta iota.
  assert (Hc : JS.truthy_opt (JS.searchParams_get "code" searchParams)
               && JS.truthy_opt (JS.searchParams_get "state" searchParams) = false).
  { destruct Hmissing as [-> | ->]; [reflexivity | apply andb_false_r]. }
  rewrite Hc. reflexivity.
Qed.

Lemma postRefresh_afterFetch_not_200 (r : Response) (s : State) :
  status r <> 200 -> postRefresh_afterFetch (Normal r) s = (Fulfilled false, s).
Proof.
  intros H. unfold postRefresh_afterFetch. monad.
  destruct (status r =? 200) eqn:E; [apply Z.eqb_eq in E; contradiction | reflexivity].
Qed.

(** C5, as amended: when the refresh endpoint answers with a status other
    than 200, [postRefresh()] resolves to [false]; the store is as the
    call's own token read left it when the request was sent, which is as it
    was before the call when the address carries no fragment; the memo is as
    it was before the call, so [isLoggedIn()] afterwards still reports what
    was memoized. *)
Theorem C5_refresh_not_200 (s s1 : State) (tok apiBase : string) (r : Response)
    (parsed : Completion Json) :
  getToken s = (Normal (Some tok), s1) ->
  JS.truthy tok = true ->
  getApiBase s1 = (Normal apiBase, s1) ->
  status r <> 200 ->
  exists s',
    postRefresh_run (Normal r) parsed s = (Fulfilled false, s')
    /\ localStorage s' = localStorage s1
    /\ (JS.startsWith "#" (hash (location s)) = false ->
        localStorage s' = localStorage s)
    /\ __isLoggedIn s' = __isLoggedIn s
    /\ forall v, __isLoggedIn s = Some v -> isLoggedIn s' = (Normal v, s').
Proof.
  intros Htok Htruthy Hbase Hstatus.
  destruct (getToken_inv _ _ _ Htok) as (_ & _ & Hmemo & _).
  exists (with_event (Fetch (refreshRequest apiBase tok)) s1).
  unfold postRefresh_run.
  rewrite (postRefresh_sends _ _ _ _ Htok Htruthy Hbase).
  rewrite (postRefresh_afterFetch_not_200 _ _ Hstatus).
  split; [reflexivity|]. split; [reflexivity|]. split.
  { intros Hhash. rewrite (getToken_no_fragment _ Hhash) in Htok.
    injection Htok as _ <-. reflexivity. }
  split; [exact Hmemo|].
  intros v Hv. apply isLoggedIn_memoized. simpl. congruence.
Qed.

(** A refresh that succeeds stores the replacement token and leaves the
    memo as it was. *)
Lemma postRefresh_success_keeps_memo (s s' : State) (net : Completion Response)
    (parsed : Completion Json) :
  postRefresh_run net parsed s = (Fulfilled true, s') ->
  __isLoggedIn s' = __isLoggedIn s.
Proof.
  unfold postRefresh_run, postRefresh, postRefresh_afterFetch, postRefresh_afterJson,
    postRefresh_catch, fetch.
  unfold async, try_catch. unfold mbind at 1, M_bind at 1.
  destruct (getToken_spec s) as [(s1 & -> & _ & Hmemo & _) | (e & s1 & -> & _)];
    [|monad; discriminate].
  destruct (JS.truthy_opt (localStorage s1 !! "token")); reduce_if;
    [|monad; discriminate].
  monad. rewrite (getApiBase_state s1).
  destruct (fst (getApiBase s1)) as [apiBase|e]; [|discriminate].
  destruct net as [r|e]; [|discriminate].
  destruct (status r =? 200); reduce_if; [|discriminate].
  destruct parsed as [body|e]; [|discriminate].
  destruct (RefreshResponseSchema_safeParse body) as [t|]; [|discriminate].
  intros [= <-]. exact Hmemo.
Qed.

(** *** The rest of jwt.ts: login and the user profile *)

(** [UserMeResponse] and its schema come from core/ApiSchemas;
    [encodeURIComponent] from the platform. *)
Context {UserMeResponse : Type}.
(** [UserMeResponseSchema.safeParse(body)]: [result.data] on success. *)
Variable UserMeResponseSchema_safeParse : Json -> option UserMeResponse.
Variable encodeURIComponent : string -> string.

(** [window.location.href] of a page: its origin, path, query and
    fragment. *)
Definition location_href (l : Location) : string :=
  origin l +:+ pathname l +:+ search l +:+ hash l.

(** What [discordLogin] does with the authorization URL. *)
Inductive LoginStep :=
| BrowserOpen (url : string)      (* await Browser.open({ url }) *)
| SetLocationHref (url : string). (* window.location.href = url *)

(** [discordLogin()]: it changes none of the module's variables, so the
    step it takes is its result; [Throw] when the promise is rejected before
    any step (the API base cannot be computed). *)
Definition discordLogin : State -> Completion LoginStep := fun s =>
  let redirectUri :=
    if isNative then default "undefined" (API_BASE_URL env) +:+ "/discord-redirect.html"
    else hd EmptyString (JS.split "#" (location_href (location s))) in
  match getApiBase s with
  | (Normal apiBase, _) =>
      let url := apiBase +:+ "/login/discord?redirect_uri=" +:+ encodeURIComponent redirectUri in
      Normal (if isNative then BrowserOpen url else SetLocationHref url)
  | (Throw e, _) => Throw e
  end.

(** The [catch] block of [getUserMe]. *)
Definition getUserMe_catch (e : JsError) : M (Promise (option UserMeResponse)) :=
  modify (with___isLoggedIn (Some LoggedOut));;
  mret (Fulfilled None).

(** [getUserMe()] up to its [await fetch(...)]; [None] is the [false] it
    returns.  The request names no method, so it is a GET. *)
Definition getUserMe : State -> Promise (option UserMeResponse) * State :=
  async (try_catch (
    token ← getToken;
    if negb (JS.truthy_opt token) then mret (Fulfilled None)
    else
      let token := default EmptyString token in
      (* Get the user object *)
      apiBase ← getApiBase;
      on ← fetch {| url := apiBase +:+ "/users/@me";
                    method := "GET";
                    headers := [("authorization", "Bearer " +:+ token)];
                    body := None |};
      mret (Pending on)) getUserMe_catch).

(** [getUserMe] from the point where its [fetch] has settled, up to
    [await response.json()]. *)
Definition getUserMe_afterFetch (answer : Completion Response)
  : State -> Promise (option UserMeResponse) * State :=
  async (try_catch (
    match answer with
    | Throw e => throw e
    | Normal response =>
        if negb (status response =? 200) then mret (Fulfilled None)
        else mret (Pending AwaitJson)
    end) getUserMe_catch).

(** [getUserMe] from the point where [response.json()] has settled. *)
Definition getUserMe_afterJson (answer : Completion Json)
  : State -> Promise (option UserMeResponse) * State :=
  async (try_catch (
    match answer with
    | Throw e => throw e
    | Normal body =>
        match UserMeResponseSchema_safeParse body with
        | None =>
            console_error "Invalid response";;
            mret (Fulfilled None)
        | Some data => mret (Fulfilled (Some data))
        end
    end) getUserMe_catch).

(** [getUserMe()] when nothing else runs between its suspension points. *)
Definition getUserMe_run (net : Completion Response) (parsed : Completion Json)
  : State -> Promise (option UserMeResponse) * State := fun s =>
  match getUserMe s with
  | (Pending (AwaitFetch _), s1) =>
      match getUserMe_afterFetch net s1 with
      | (Pending AwaitJson, s2) => getUserMe_afterJson parsed s2
      | settled => settled
      end
  | settled => settled
  end.

(** The host name the audience is computed from. *)
Definition audience_host (s : State) : string :=
  JS.or_else (CAPACITOR_PRODUCTION_HOSTNAME env) (hostname (location s)).

(** *** Properties of [getAudience] and [getApiBase] *)

Lemma getAudience_value (s : State) :
  getAudience s
  = (Normal (JS.join "." (JS.slice_last 2 (JS.split "." (audience_host s)))), s).
Proof. reflexivity. Qed.

(** X4: [getAudience] returns, changes nothing, and its result has at most
    two dot-separated labels: computing the domain of the result gives the
    result back. *)
Theorem X4_getAudience_two_labels (s : State) :
  exists audience,
    getAudience s = (Normal audience, s)
    /\ (List.length (JS.split "." audience) <= 2)%nat
    /\ JS.join "." (JS.slice_last 2 (JS.split "." audience)) = audience.
Proof.
  rewrite getAudience_value. eexists. split; [reflexivity|].
  set (pieces := JS.slice_last 2 (JS.split "." (audience_host s))).
  assert (Hsplit : JS.split "." (JS.join "." pieces) = pieces).
  { apply JSFacts.split_join.
    - apply JSFacts.slice_last_nonempty; [lia | apply JSFacts.split_nonempty].
    - apply JSFacts.Forall_slice_last, JSFacts.split_piece. }
  rewrite Hsplit. split; [apply JSFacts.slice_last_length|].
  rewrite JSFacts.slice_last_short by apply JSFacts.slice_last_length. reflexivity.
Qed.

(** X5: a host name of one or two labels is its own audience, and every
    subdomain of a host name of two or more labels has the audience of that
    host name. *)
Theorem X5_getAudience_subdomains (s s' : State) (sub : string) :
  (List.length (JS.split "." (audience_host s)) <= 2 ->
     getAudience s = (Normal (audience_host s), s))%nat
  /\ (2 <= List.length (JS.split "." (audience_host s)) ->
      audience_host s' = sub +:+ "." +:+ audience_host s ->
      fst (getAudience s') = fst (getAudience s))%nat.
Proof.
  split.
  - intros Hshort. rewrite getAudience_value, JSFacts.slice_last_short by exact Hshort.
    rewrite JSFacts.join_split. reflexivity.
  - intros Hlong Hsub. rewrite !getAudience_value. simpl fst. rewrite Hsub.
    change (sub +:+ "." +:+ audience_host s)
      with (sub +:+ String "." (audience_host s)).
    rewrite JSFacts.split_app, JSFacts.slice_last_app by exact Hlong. reflexivity.
Qed.

(** X6: away from localhost the API base is [https://api.] followed by the
    audience, whatever the store and the build constants hold. *)
Theorem X6_getApiBase_remote (s : State) (audience : string) :
  getAudience s = (Normal audience, s) ->
  audience <> "localhost" ->
  getApiBase s = (Normal ("https://api." +:+ audience), s).
Proof.
  intros Haud Hne. unfold getApiBase. monad. rewrite Haud.
  destruct (String.eqb_spec audience "localhost") as [E|_]; [contradiction | reflexivity].
Qed.

Lemma getApiBase_on_localhost (s : State) :
  fst (getAudience s) = Normal "localhost" ->
  fst (getApiBase s)
  = if apiHost_or_native (localStorage s !! "apiHost") then
      match API_BASE_URL env with
      | Some base => Normal (JS.replace "9000" "8787" base)
      | None => Throw (TypeError "Cannot read properties of undefined (reading 'replace')")
      end
    else Normal "http://localhost:8787".
Proof.
  rewrite getAudience_value. simpl fst. intros [= E].
  unfold getApiBase. monad. rewrite getAudience_value, E. simpl.
  destruct (apiHost_or_native _); [|reflexivity].
  destruct (API_BASE_URL env); reflexivity.
Qed.

Lemma apiHost_or_native_without_base (apiHost : option string) :
  API_BASE_URL env = None -> apiHost_or_native apiHost = JS.truthy_opt apiHost.
Proof.
  intros H. unfold apiHost_or_native. rewrite H.
  destruct apiHost; [reflexivity | apply andb_false_r].
Qed.

(** X7: [getApiBase] throws exactly when the audience is localhost, a
    non-empty [apiHost] is stored and [API_BASE_URL] is undefined; it never
    changes the state. *)
Theorem X7_getApiBase_throws_iff (s : State) :
  snd (getApiBase s) = s
  /\ ((exists e, fst (getApiBase s) = Throw e)
      <-> fst (getAudience s) = Normal "localhost"
          /\ JS.truthy_opt (localStorage s !! "apiHost") = true
          /\ API_BASE_URL env = None).
Proof.
  split; [rewrite getApiBase_state; reflexivity|].
  destruct (getAudience_normal s) as (audience & Haud).
  destruct (String.eqb_spec audience "localhost") as [->|Hne].
  - rewrite getApiBase_on_localhost by (rewrite Haud; reflexivity). rewrite Haud. simpl fst.
    destruct (API_BASE_URL env) as [base|] eqn:Hbase.
    + split.
      * destruct (apiHost_or_native _); intros (e & [=]).
      * intros (_ & _ & [=]).
    + rewrite apiHost_or_native_without_base by exact Hbase.
      destruct (JS.truthy_opt (localStorage s !! "apiHost")); split.
      * auto.
      * eauto.
      * intros (e & [=]).
      * intros (_ & [=] & _).
  - rewrite Haud. unfold getApiBase. monad. rewrite Haud.
    destruct (String.eqb_spec audience "localhost") as [E|_]; [contradiction|].
    simpl fst. split.
    + intros (e & [=]).
    + intros ([= H] & _). contradiction.
Qed.

(** X8: on every host the value stored under [apiHost] is never used: two
    stores that differ only in the non-empty string they hold there give the
    same API base. *)
Theorem X8_getApiBase_ignores_apiHost_value (s : State) (h1 h2 : string) :
  h1 <> EmptyString ->
  h2 <> EmptyString ->
  fst (getApiBase (with_localStorage (insert "apiHost" h1) s))
  = fst (getApiBase (with_localStorage (insert "apiHost" h2) s)).
Proof.
  intros H1 H2. unfold getApiBase, getAudience. monad. simpl.
  destruct (String.eqb _ "localhost"); [|reflexivity].
  simpl. rewrite !lookup_insert_eq. unfold apiHost_or_native.
  destruct h1; [congruence|]. destruct h2; [congruence|]. simpl JS.truthy.
  destruct (API_BASE_URL env); reflexivity.
Qed.

(** *** Properties of [getToken] and [logOut] *)

Lemma startsWith_hash (q : string) : JS.startsWith "#" (String "#" q) = true.
Proof.
  unfold JS.startsWith. simpl. destruct (ascii_dec "#" "#") as [_|H]; [|congruence].
  destruct q; reflexivity.
Qed.

(** X9: a fragment that begins with [#] is consumed by [getToken], on a
    page whose path and query do not begin with [//] (such a target names a
    host, and [history.replaceState] may refuse it).  When the fragment
    carries a non-empty [token] parameter, that token replaces whatever the
    store held and is returned; when it carries none, or an empty one, the
    store is left alone.  Either way the address is rewritten to the page's
    path and query, and the memo is not touched. *)
Theorem X9_getToken_fragment (s : State) (q : string) :
  hash (location s) = String "#" q ->
  JS.startsWith "//" (pathname (location s) +:+ search (location s)) = false ->
  let cleaned (s0 : State) :=
    with_hash EmptyString
      (with_event (HistoryReplaceState (pathname (location s) +:+ search (location s))) s0) in
  (forall t, JS.searchParams_get "token" (URLSearchParams q) = Some t ->
             t <> EmptyString ->
             getToken s
             = (Normal (Some t), cleaned (with_localStorage (insert "token" t) s)))
  /\ (JS.searchParams_get "token" (URLSearchParams q) = None
      \/ JS.searchParams_get "token" (URLSearchParams q) = Some EmptyString ->
      getToken s = (Normal (localStorage s !! "token"), cleaned s)).
Proof.
  intros Hhash Hpath cleaned. unfold getToken, history_replaceState. monad. simpl.
  rewrite Hhash, startsWith_hash. cbv iota.
  rewrite JSFacts.slice_1_cons. split.
  - intros t Ht Hne. rewrite Ht. destruct t as [|c t']; [congruence|].
    simpl. rewrite Hpath. simpl. rewrite lookup_insert_eq. reflexivity.
  - intros [Ht | Ht]; rewrite Ht; simpl; rewrite Hpath; reflexivity.
Qed.


(** X11: logging out is decided locally.  With a token in the store,
    whatever the network answers, and even when the API base cannot be
    computed, [logOut] leaves the store without the token and the memo at
    [false]; [isLoggedIn()] then reports [false] without decoding anything,
    and a second [logOut] does nothing. *)
Theorem X11_logOut_is_local (allSessions : bool) (net : Completion Response)
    (s : State) (tok : string) :
  localStorage s !! "token" = Some tok ->
  exists p s',
    logOut_run allSessions net s = (p, s')
    /\ localStorage s' = delete "token" (localStorage s)
    /\ __isLoggedIn s' = Some LoggedOut
    /\ isLoggedIn s' = (Normal LoggedOut, s')
    /\ forall again, logOut again s' = (Fulfilled None, s').
Proof.
  intros Htok.
  assert (Hstate : exists p s', logOut_run allSessions net s = (p, s')
            /\ localStorage s' = delete "token" (localStorage s)
            /\ __isLoggedIn s' = Some LoggedOut).
  { unfold logOut_run, logOut, logOut_afterFetch, fetch. monad. simpl. rewrite Htok.
    cbv beta iota.
    match goal with |- context [getApiBase ?st] =>
      rewrite (getApiBase_state st); destruct (fst (getApiBase st)) as [apiBase|e]
    end.
    - destruct net as [r|e]; [destruct (ok r)|]; simpl; eauto.
    - eauto. }
  destruct Hstate as (p & s' & Hrun & Hstore & Hmemo).
  exists p, s'. repeat split; try assumption.
  - apply isLoggedIn_memoized. exact Hmemo.
  - intros again. unfold logOut. monad. rewrite Hstore, lookup_delete_eq. reflexivity.
Qed.

(** X12: with a token and a computable API base, [logOut] sends exactly one
    request, a POST to [/revoke] when [allSessions] is set and to [/logout]
    otherwise, with the removed token as bearer.  An OK response resolves it
    to [true], any other response to [false] with an error logged, and a
    request that fails rejects it. *)
Theorem X12_logOut_request_and_outcome (allSessions : bool) (s : State)
    (tok apiBase : string) :
  localStorage s !! "token" = Some tok ->
  getApiBase s = (Normal apiBase, s) ->
  let req := {| url := apiBase +:+ (if allSessions then "/revoke" else "/logout");
                method := "POST";
                headers := [("authorization", "Bearer " +:+ tok)];
                body := None |} in
  exists s1,
    logOut allSessions s = (Pending (AwaitFetch req), s1)
    /\ fetches s1 = (fetches s ++ [req])%list
    /\ (forall r, logOut_afterFetch (Normal r) s1
                  = if ok r then (Fulfilled (Some true), s1)
                    else (Fulfilled (Some false),
                          with_event (ConsoleError "Logout failed") s1))
    /\ (forall e, logOut_afterFetch (Throw e) s1 = (Rejected e, s1)).
Proof.
  intros Htok Hbase req. eexists. split; [apply logOut_with_token; assumption|].
  split.
  - rewrite fetches_with_event. reflexivity.
  - split.
    + intros r. unfold logOut_afterFetch. monad. destruct (ok r); reflexivity.
    + intros e. reflexivity.
Qed.

(** *** Properties of [postRefresh] *)

(** A refresh whose request has been sent, run to its end. *)
Lemma postRefresh_run_sent (s s1 : State) (tok apiBase : string)
    (net : Completion Response) (parsed : Completion Json) :
  getToken s = (Normal (Some tok), s1) ->
  JS.truthy tok = true ->
  getApiBase s1 = (Normal apiBase, s1) ->
  postRefresh_run net parsed s =
    let s2 := with_event (Fetch (refreshRequest apiBase tok)) s1 in
    match net with
    | Throw _ => (Fulfilled false, with___isLoggedIn (Some LoggedOut) s2)
    | Normal r =>
        if status r =? 200 then
          match parsed with
          | Throw _ => (Fulfilled false, with___isLoggedIn (Some LoggedOut) s2)
          | Normal body =>
              match RefreshResponseSchema_safeParse body with
              | None => (Fulfilled false, with_event (ConsoleError "Invalid response") s2)
              | Some t => (Fulfilled true, with_localStorage (insert "token" t) s2)
              end
          end
        else (Fulfilled false, s2)
    end.
Proof.
  intros Htok Htruthy Hbase. unfold postRefresh_run.
  rewrite (postRefresh_sends _ _ _ _ Htok Htruthy Hbase). cbv zeta.
  unfold postRefresh_afterFetch, postRefresh_afterJson, postRefresh_catch. monad.
  destruct net as [r|e]; [|reflexivity].
  destruct (status r =? 200); reduce_if; [|reflexivity].
  destruct parsed as [body|e]; [|reflexivity].
  destruct (RefreshResponseSchema_safeParse body); reflexivity.
Qed.

(** A refresh that sends nothing: there is no token, or the API base
    cannot be computed. *)
Lemma postRefresh_not_sent (s s1 : State) (r : option string) :
  getToken s = (Normal r, s1) ->
  (JS.truthy_opt r = false -> postRefresh s = (Fulfilled false, s1))
  /\ (forall e, JS.truthy_opt r = true -> getApiBase s1 = (Throw e, s1) ->
        postRefresh s = (Fulfilled false, with___isLoggedIn (Some LoggedOut) s1)).
Proof.
  intros Htok. split.
  - intros Hfalsy. unfold postRefresh, async, try_catch.
    unfold mbind at 1, M_bind at 1. rewrite Htok, Hfalsy. reflexivity.
  - intros e Htruthy Hbase. unfold postRefresh, async, try_catch, postRefresh_catch.
    unfold mbind at 1, M_bind at 1. rewrite Htok, Htruthy. reduce_if.
    monad. rewrite Hbase. reflexivity.
Qed.

(** A refresh whose token read throws: the catch block sets the memo to
    [false] and the promise resolves to [false]. *)
Lemma postRefresh_getToken_throws (s s1 : State) (e : JsError) :
  getToken s = (Throw e, s1) ->
  postRefresh s = (Fulfilled false, with___isLoggedIn (Some LoggedOut) s1).
Proof.
  intros Htok. unfold postRefresh, async, try_catch, postRefresh_catch.
  unfold mbind at 1, M_bind at 1. rewrite Htok. reflexivity.
Qed.

(** X13: [postRefresh] never rejects: whatever the store holds and however
    the request and the body settle, its promise is fulfilled with a
    boolean. *)
Theorem X13_postRefresh_never_rejects (net : Completion Response)
    (parsed : Completion Json) (s : State) :
  exists b s', postRefresh_run net parsed s = (Fulfilled b, s').
Proof.
  destruct (getToken_spec s) as [(s1 & Htok & _) | (e & s1 & Htok & _)];
    [|unfold postRefresh_run; rewrite (postRefresh_getToken_throws _ _ _ Htok); eauto].
  destruct (postRefresh_not_sent _ _ _ Htok) as (Hnone & Hthrow).
  destruct (JS.truthy_opt (localStorage s1 !! "token")) eqn:Htruthy.
  - pose proof (getApiBase_state s1) as Hbase.
    destruct (fst (getApiBase s1)) as [apiBase|e].
    + destruct (localStorage s1 !! "token") as [tok|] eqn:Hstored; [|discriminate].
      rewrite (postRefresh_run_sent _ _ _ _ net parsed Htok Htruthy Hbase). cbv zeta.
      destruct net as [r|e]; [|eauto].
      destruct (status r =? 200); [|eauto].
      destruct parsed as [body|e]; [|eauto].
      destruct (RefreshResponseSchema_safeParse body); eauto.
    + unfold postRefresh_run. rewrite (Hthrow e eq_refl Hbase). eauto.
  - unfold postRefresh_run. rewrite (Hnone eq_refl). eauto.
Qed.


(** X15: once its request is sent, [postRefresh] resolves to [true] exactly
    when the response has status 200 and its body parses under the refresh
    schema; the token of that body is then the stored token. *)
Theorem X15_postRefresh_true_iff (s s1 : State) (tok apiBase : string)
    (net : Completion Response) (parsed : Completion Json) :
  getToken s = (Normal (Some tok), s1) ->
  JS.truthy tok = true ->
  getApiBase s1 = (Normal apiBase, s1) ->
  (fst (postRefresh_run net parsed s) = Fulfilled true
   <-> exists r body t,
         net = Normal r /\ status r = 200 /\ parsed = Normal body
         /\ RefreshResponseSchema_safeParse body = Some t)
  /\ (forall r body t,
        net = Normal r -> status r = 200 -> parsed = Normal body ->
        RefreshResponseSchema_safeParse body = Some t ->
        localStorage (snd (postRefresh_run net parsed s)) !! "token" = Some t).
Proof.
  intros Htok Htruthy Hbase.
  rewrite (postRefresh_run_sent _ _ _ _ net parsed Htok Htruthy Hbase). cbv zeta.
  split.
  - split.
    + destruct net as [r|e]; [|discriminate].
      destruct (status r =? 200) eqn:Hs; [|discriminate].
      destruct parsed as [body|e]; [|discriminate].
      destruct (RefreshResponseSchema_safeParse body) as [t|] eqn:Hp; [|discriminate].
      intros _. exists r, body, t. apply Z.eqb_eq in Hs. auto.
    + intros (r & body & t & -> & Hs & -> & Hp).
      apply Z.eqb_eq in Hs. rewrite Hs, Hp. reflexivity.
  - intros r body t -> Hs -> Hp. apply Z.eqb_eq in Hs. rewrite Hs, Hp.
    simpl. apply lookup_insert_eq.
Qed.

(** X16: when the request fails, or the body of a 200 response cannot be
    read, [postRefresh] resolves to [false] and sets the memo to [false]:
    the stored token is untouched, yet [isLoggedIn()] reports [false]
    from then on. *)
Theorem X16_postRefresh_failure_logs_out (s s1 : State) (tok apiBase : string)
    (net : Completion Response) (parsed : Completion Json) (e : JsError) :
  getToken s = (Normal (Some tok), s1) ->
  JS.truthy tok = true ->
  getApiBase s1 = (Normal apiBase, s1) ->
  net = Throw e \/ (exists r, net = Normal r /\ status r = 200 /\ parsed = Throw e) ->
  exists s',
    postRefresh_run net parsed s = (Fulfilled false, s')
    /\ localStorage s' !! "token" = Some tok
    /\ __isLoggedIn s' = Some LoggedOut
    /\ isLoggedIn s' = (Normal LoggedOut, s').
Proof.
  intros Htok Htruthy Hbase Hfail.
  destruct (getToken_inv _ _ _ Htok) as ([= Hstored] & _).
  rewrite (postRefresh_run_sent _ _ _ _ net parsed Htok Htruthy Hbase). cbv zeta.
  assert (Hend : forall s2 : State,
    localStorage s2 = localStorage s1 ->
    localStorage (with___isLoggedIn (Some LoggedOut) s2) !! "token" = Some tok
    /\ __isLoggedIn (with___isLoggedIn (Some LoggedOut) s2) = Some LoggedOut
    /\ isLoggedIn (with___isLoggedIn (Some LoggedOut) s2)
       = (Normal LoggedOut, with___isLoggedIn (Some LoggedOut) s2)).
  { intros s2 Hs2. split; [simpl; rewrite Hs2; auto|]. split; [reflexivity|].
    apply isLoggedIn_memoized. reflexivity. }
  destruct Hfail as [-> | (r & -> & Hs & ->)].
  - eexists. split; [reflexivity | apply Hend; reflexivity].
  - apply Z.eqb_eq in Hs. rewrite Hs.
    eexists. split; [reflexivity | apply Hend; reflexivity].
Qed.

(** X17: nothing guards a refresh in flight against a logout.  When
    [logOut] runs while [postRefresh] is suspended on its request and the
    request then succeeds, the replacement token is written into the store
    the logout had cleared, while the memo stays at [false]. *)
Theorem X17_refresh_overwrites_logout (s s1 : State) (tok apiBase : string)
    (allSessions : bool) (r : Response) (body : Json) (t : string) :
  getToken s = (Normal (Some tok), s1) ->
  JS.truthy tok = true ->
  getApiBase s1 = (Normal apiBase, s1) ->
  status r = 200 ->
  RefreshResponseSchema_safeParse body = Some t ->
  let sent := snd (postRefresh s) in
  let loggedOut := snd (logOut allSessions sent) in
  let landed := postRefresh_afterJson (Normal body)
                  (snd (postRefresh_afterFetch (Normal r) loggedOut)) in
  fst (postRefresh s) = Pending (AwaitFetch (refreshRequest apiBase tok))
  /\ localStorage loggedOut !! "token" = None
  /\ fst landed = Fulfilled true
  /\ localStorage (snd landed) !! "token" = Some t
  /\ __isLoggedIn (snd landed) = Some LoggedOut.
Proof.
  intros Htok Htruthy Hbase Hs Hp sent loggedOut landed.
  destruct (getToken_inv _ _ _ Htok) as ([= Hstored] & _).
  subst landed loggedOut sent.
  rewrite (postRefresh_sends _ _ _ _ Htok Htruthy Hbase). simpl fst. simpl snd.
  rewrite (logOut_with_token allSessions _ tok apiBase);
    [| simpl; auto
     | rewrite (getApiBase_frame s1), Hbase; [reflexivity | split; reflexivity] ].
  simpl snd.
  unfold postRefresh_afterFetch, postRefresh_afterJson. monad.
  apply Z.eqb_eq in Hs. rewrite Hs, Hp. simpl.
  rewrite lookup_delete_eq, lookup_insert_eq. auto.
Qed.

(** *** Properties of the validator *)

Lemma _isLoggedIn_no_token (s s1 : State) (r : option string) :
  getToken s = (Normal r, s1) ->
  JS.truthy_opt r = false ->
  _isLoggedIn s = (Normal LoggedOut, s1).
Proof.
  intros Htok Hfalsy. unfold _isLoggedIn, try_catch.
  unfold mbind at 1, M_bind at 1. rewrite Htok, Hfalsy. reflexivity.
Qed.

Lemma _isLoggedIn_malformed (s s1 : State) (tok : string) :
  getToken s = (Normal (Some tok), s1) ->
  JS.truthy tok = true ->
  decodeJwt tok = None ->
  _isLoggedIn s
  = (Normal LoggedOut, with_event (ConsoleLog "Invalid JWT") (with_event (DecodeJwt tok) s1)).
Proof.
  intros Htok Htruthy Hdec. unfold _isLoggedIn, try_catch.
  unfold mbind at 1, M_bind at 1. rewrite Htok.
  change (JS.truthy_opt (Some tok)) with (JS.truthy tok). rewrite Htruthy.
  change (default EmptyString (Some tok)) with tok. monad. rewrite Hdec. reflexivity.
Qed.

Lemma decodes_with_event (ev : Event) (s : State) :
  decodes (with_event ev s)
  = (decodes s ++ match ev with DecodeJwt t => [t] | _ => [] end)%list.
Proof.
  unfold decodes, with_event. simpl. rewrite omap_app. simpl.
  destruct ev; reflexivity.
Qed.

(** X18: the validator answers with a token only when every check has
    passed: the token is the one [getToken] returned, it decodes, its [iss]
    is the API base unless the context is native, its [aud] is the audience,
    it is not expired, and the claims returned are the ones its payload
    parses to.  The token is still in the store. *)
Theorem X18_LoggedIn_means_checked (s s' : State) (tok : string) (claims : TokenPayload) :
  _isLoggedIn s = (Normal (LoggedIn tok claims), s') ->
  exists s1 payload apiBase audience,
    getToken s = (Normal (Some tok), s1)
    /\ decodeJwt tok = Some payload
    /\ getApiBase s1 = (Normal apiBase, s1)
    /\ getAudience s1 = (Normal audience, s1)
    /\ (isNative = true \/ iss payload = Some apiBase)
    /\ aud payload = Some (AudString audience)
    /\ (forall e, exp payload = Some e -> now s < e)
    /\ TokenPayloadSchema_safeParse payload = Some claims
    /\ localStorage s' !! "token" = Some tok.
Proof.
  intros Hres.
  destruct (getToken_spec s) as [(s1 & Htok & _) | (e & s1 & Htok & _)];
    [| rewrite (_isLoggedIn_getToken_throws _ _ _ Htok) in Hres; discriminate].
  destruct (JS.truthy_opt (localStorage s1 !! "token")) eqn:Htruthy;
    [| rewrite (_isLoggedIn_no_token _ _ _ Htok Htruthy) in Hres; discriminate].
  destruct (localStorage s1 !! "token") as [tok0|] eqn:Hstored; [|discriminate].
  destruct (decodeJwt tok0) as [payload|] eqn:Hdec;
    [| rewrite (_isLoggedIn_malformed _ _ _ Htok Htruthy Hdec) in Hres; discriminate].
  pose proof (getApiBase_state s1) as Hbase.
  destruct (fst (getApiBase s1)) as [apiBase|e];
    [| rewrite (_isLoggedIn_without_apiBase _ _ _ _ _ Htok Hdec Hbase) in Hres;
       discriminate].
  destruct (getAudience_normal s1) as (audience & Haud).
  rewrite (_isLoggedIn_decoded _ _ _ _ _ _ Htok Hdec Hbase Haud) in Hres.
  cbv zeta in Hres. rewrite (now_getToken _ _ _ Htok) in Hres.
  destruct (iss_differs (iss payload) apiBase && negb isNative) eqn:Hi; [discriminate|].
  destruct (aud_differs (aud payload) audience) eqn:Ha; [discriminate|].
  destruct (is_expired (exp payload) (now s)) eqn:He; [discriminate|].
  destruct (TokenPayloadSchema_safeParse payload) as [claims0|] eqn:Hp; [|discriminate].
  injection Hres as <- <- <-.
  exists s1, payload, apiBase, audience.
  repeat split; try assumption.
  - apply andb_false_iff in Hi. destruct Hi as [Hi|Hn].
    + right. apply iss_differs_false. exact Hi.
    + left. destruct isNative; [reflexivity | discriminate].
  - apply aud_differs_false. exact Ha.
  - intros e Hexp. rewrite Hexp in He. simpl in He. apply Z.leb_gt in He. exact He.
  - destruct (refresh_due (iat payload) (now s)); exact Hstored.
Qed.

(** X19: when [getToken] returns no token, or the empty string, the
    validator answers [false] and does nothing else: nothing is decoded and
    no request is sent. *)
Theorem X19_validator_without_token (s s1 : State) (r : option string) :
  getToken s = (Normal r, s1) ->
  JS.truthy_opt r = false ->
  _isLoggedIn s = (Normal LoggedOut, s1)
  /\ decodes s1 = decodes s
  /\ fetches s1 = fetches s.
Proof.
  intros Htok Hfalsy.
  destruct (getToken_inv _ _ _ Htok) as (_ & _ & _ & Hf & Hd & _).
  split; [|auto]. unfold _isLoggedIn, try_catch.
  unfold mbind at 1, M_bind at 1. rewrite Htok, Hfalsy. reflexivity.
Qed.

(** X20: a token that does not decode is not a reason to log out: the
    validator answers [false], the error is logged, and the token stays in
    the store; no request is sent and the memo is not touched. *)
Theorem X20_malformed_token_is_kept (s s1 : State) (tok : string) :
  getToken s = (Normal (Some tok), s1) ->
  tok <> EmptyString ->
  decodeJwt tok = None ->
  exists s',
    _isLoggedIn s = (Normal LoggedOut, s')
    /\ localStorage s' !! "token" = Some tok
    /\ __isLoggedIn s' = __isLoggedIn s
    /\ fetches s' = fetches s
    /\ decodes s' = (decodes s ++ [tok])%list.
Proof.
  intros Htok Hne Hdec.
  assert (Htruthy : JS.truthy tok = true) by (destruct tok; [congruence | reflexivity]).
  destruct (getToken_inv _ _ _ Htok) as ([= Hstored] & _ & Hmemo & Hf & Hd & _).
  eexists. split; [apply (_isLoggedIn_malformed _ _ _ Htok Htruthy Hdec)|].
  split; [simpl; auto|]. split; [exact Hmemo|]. split.
  - rewrite !fetches_with_event, !app_nil_r. exact Hf.
  - rewrite !decodes_with_event, app_nil_r, Hd. reflexivity.
Qed.

(** X21: when the API base can be computed, an audience mismatch logs
    out, on the web and in a native build alike: when the issuer check has
    passed (or the context is native) and the decoded [aud] is not the
    audience, the validator answers [false], removes the token and sends
    exactly one request, the logout POST. *)
Theorem X21_audience_mismatch_logs_out (s s1 : State) (tok apiBase audience : string)
    (payload : JWTPayload) :
  getToken s = (Normal (Some tok), s1) ->
  decodeJwt tok = Some payload ->
  getApiBase s1 = (Normal apiBase, s1) ->
  getAudience s1 = (Normal audience, s1) ->
  isNative = true \/ iss payload = Some apiBase ->
  aud payload <> Some (AudString audience) ->
  exists s',
    _isLoggedIn s = (Normal LoggedOut, s')
    /\ localStorage s' !! "token" = None
    /\ __isLoggedIn s' = Some LoggedOut
    /\ fetches s' = (fetches s ++ [logoutRequest apiBase tok])%list.
Proof.
  intros Htok Hdec Hbase Haud Hiss Hne.
  pose proof (_isLoggedIn_decoded _ _ _ _ _ _ Htok Hdec Hbase Haud) as E.
  destruct (getToken_inv _ _ _ Htok) as (_ & _ & _ & Hf & _).
  assert (Hi : iss_differs (iss payload) apiBase && negb isNative = false).
  { destruct Hiss as [-> | Hi]; [apply andb_false_r|].
    apply iss_differs_false in Hi. rewrite Hi. reflexivity. }
  assert (Ha : aud_differs (aud payload) audience = true).
  { destruct (aud_differs (aud payload) audience) eqn:Ha; [reflexivity|].
    apply aud_differs_false in Ha. contradiction. }
  rewrite Hi, Ha in E. cbv zeta in E.
  eexists. split; [exact E|]. split; [simpl; apply lookup_delete_eq|].
  split; [reflexivity|].
  rewrite fetches_after_logOut, fetches_with_event, app_nil_r, Hf. reflexivity.
Qed.

(** X22: one run of the validator decodes at most one token and sends at
    most one request, and it always returns. *)
Theorem X22_validator_at_most_one_request (s : State) :
  exists r s' decoded sent,
    _isLoggedIn s = (Normal r, s')
    /\ decodes s' = (decodes s ++ decoded)%list
    /\ fetches s' = (fetches s ++ sent)%list
    /\ (List.length decoded <= 1)%nat
    /\ (List.length sent <= 1)%nat.
Proof.
  destruct (getToken_spec s)
    as [(s1 & Htok & _ & _ & Hf & Hd & _) | (e & s1 & Htok & _ & Hf & Hd & _)].
  2:{ rewrite (_isLoggedIn_getToken_throws _ _ _ Htok).
      exists LoggedOut. eexists. exists [], [].
      split; [reflexivity|].
      rewrite decodes_with_event, fetches_with_event, !app_nil_r, Hd, Hf.
      simpl. repeat split; auto. }
  destruct (JS.truthy_opt (localStorage s1 !! "token")) eqn:Htruthy.
  2:{ rewrite (_isLoggedIn_no_token _ _ _ Htok Htruthy).
      exists LoggedOut, s1, [], []. rewrite !app_nil_r. simpl.
      repeat split; auto. }
  destruct (localStorage s1 !! "token") as [tok|] eqn:Hstored; [|discriminate].
  assert (Hd2 : decodes (with_event (DecodeJwt tok) s1) = (decodes s ++ [tok])%list)
    by (rewrite decodes_with_event, Hd; reflexivity).
  assert (Hf2 : fetches (with_event (DecodeJwt tok) s1) = fetches s)
    by (rewrite fetches_with_event, app_nil_r; exact Hf).
  destruct (decodeJwt tok) as [payload|] eqn:Hdec.
  2:{ rewrite (_isLoggedIn_malformed _ _ _ Htok Htruthy Hdec).
      exists LoggedOut. eexists. exists [tok], [].
      split; [reflexivity|].
      rewrite decodes_with_event, fetches_with_event, !app_nil_r, Hd2, Hf2.
      simpl. repeat split; auto. }
  pose proof (getApiBase_state s1) as Hbase.
  destruct (fst (getApiBase s1)) as [apiBase|e].
  2:{ rewrite (_isLoggedIn_without_apiBase _ _ _ _ _ Htok Hdec Hbase).
      exists LoggedOut. eexists. exists [tok], [].
      split; [reflexivity|].
      rewrite decodes_with_event, fetches_with_event, !app_nil_r, Hd2, Hf2.
      simpl. repeat split; auto. }
  destruct (getAudience_normal s1) as (audience & Haud).
  rewrite (_isLoggedIn_decoded _ _ _ _ _ _ Htok Hdec Hbase Haud). cbv zeta.
  assert (Hlog : forall msg,
    decodes (after_logOut msg apiBase tok (with_event (DecodeJwt tok) s1))
    = (decodes s ++ [tok])%list
    /\ fetches (after_logOut msg apiBase tok (with_event (DecodeJwt tok) s1))
       = (fetches s ++ [logoutRequest apiBase tok])%list).
  { intros msg. split; [|rewrite fetches_after_logOut, Hf2; reflexivity].
    unfold after_logOut. rewrite decodes_with_event, app_nil_r.
    change (decodes (with___isLoggedIn ?v (with_localStorage ?f ?x))) with (decodes x).
    rewrite decodes_with_event, app_nil_r. exact Hd2. }
  assert (Hlogout : forall msg, exists r s' decoded sent,
    (Normal LoggedOut, after_logOut msg apiBase tok (with_event (DecodeJwt tok) s1))
    = (Normal r, s')
    /\ decodes s' = (decodes s ++ decoded)%list
    /\ fetches s' = (fetches s ++ sent)%list
    /\ (List.length decoded <= 1)%nat /\ (List.length sent <= 1)%nat).
  { intros msg. destruct (Hlog msg) as (H1 & H2).
    exists LoggedOut. eexists. exists [tok], [logoutRequest apiBase tok].
    split; [reflexivity|]. simpl. repeat split; auto. }
  destruct (iss_differs _ _ && negb isNative); [apply Hlogout|].
  destruct (aud_differs _ _); [apply Hlogout|].
  destruct (is_expired _ _); [apply Hlogout|].
  assert (Hr : decodes (after_refresh_dispatch apiBase tok (with_event (DecodeJwt tok) s1))
               = (decodes s ++ [tok])%list).
  { unfold after_refresh_dispatch. do 2 rewrite decodes_with_event.
    rewrite !app_nil_r. exact Hd2. }
  destruct (refresh_due _ _); destruct (TokenPayloadSchema_safeParse payload);
    cbv beta iota; eexists; eexists; exists [tok];
    first [ exists [refreshRequest apiBase tok]; split; [reflexivity|];
            repeat (rewrite Hr || rewrite fetches_after_refresh_dispatch
                    || rewrite Hd2 || rewrite Hf2 || rewrite decodes_with_event
                    || rewrite fetches_with_event || rewrite app_nil_r);
            simpl; solve [repeat split; auto]
          | exists []; split; [reflexivity|];
            repeat (rewrite Hd2 || rewrite Hf2 || rewrite decodes_with_event
                    || rewrite fetches_with_event || rewrite app_nil_r);
            simpl; solve [repeat split; auto] ].
Qed.

(** *** Properties of the callback listener *)

(** The state the listener's [catch] block leaves. *)
Definition after_callback_error (s : State) : State :=
  with_event BrowserClose (with_event (ConsoleError "Error handling appUrlOpen") s).

(** The exchange request of the listener. *)
Definition callbackRequest (apiBase code state : string) : Request :=
  {| url := apiBase +:+ "/mobile/callback";
     method := "POST";
     headers := [("Content-Type", "application/json")];
     body := Some [("code", code); ("state", state);
                   ("redirect_uri",
                    default "undefined" (API_BASE_URL env) +:+ "/discord-redirect.html")] |}.

(** X23: a non-empty [error] parameter wins over [code] and [state]: the
    listener logs it, closes the browser and sends nothing; store and memo
    are as they were. *)
Theorem X23_callback_error_closes_browser (data_url : string) (s : State)
    (searchParams : list (string * string)) :
  URL_searchParams data_url = Some searchParams ->
  JS.truthy_opt (JS.searchParams_get "error" searchParams) = true ->
  exists s',
    appUrlOpen data_url s = (Pending AwaitBrowserClose, s')
    /\ trace s' = (trace s ++ [ConsoleError "Error from auth provider:"; BrowserClose])%list
    /\ fetches s' = fetches s
    /\ localStorage s' = localStorage s
    /\ __isLoggedIn s' = __isLoggedIn s
    /\ appUrlOpen_afterClose (Normal tt) s' = (Fulfilled tt, s').
Proof.
  intros Hurl Herr. unfold appUrlOpen, Browser_close. monad. rewrite Hurl, Herr.
  cbv beta iota. eexists. split; [reflexivity|]. simpl.
  split; [rewrite <- app_assoc; reflexivity|].
  split; [|auto]. unfold fetches. simpl. rewrite !omap_app. simpl.
  rewrite !app_nil_r. reflexivity.
Qed.

(** X24: with no [error] and with non-empty [code] and [state], the
    listener's first step depends only on the API base.  When it can be
    computed the listener sends exactly one request, a JSON POST to
    [/mobile/callback] that carries the code, the state and the fixed
    redirect URI, and nothing else happens before the response.  When it
    cannot, nothing is sent: the catch block logs and closes the browser. *)
Theorem X24_callback_exchanges_code (data_url : string) (s : State)
    (searchParams : list (string * string)) (code state : string) :
  URL_searchParams data_url = Some searchParams ->
  JS.truthy_opt (JS.searchParams_get "error" searchParams) = false ->
  JS.searchParams_get "code" searchParams = Some code ->
  JS.searchParams_get "state" searchParams = Some state ->
  code <> EmptyString ->
  state <> EmptyString ->
  appUrlOpen data_url s
  = match fst (getApiBase s) with
    | Normal apiBase =>
        (Pending (AwaitFetch (callbackRequest apiBase code state)),
         with_event (Fetch (callbackRequest apiBase code state)) s)
    | Throw _ => (Pending AwaitBrowserClose, after_callback_error s)
    end.
Proof.
  intros Hurl Herr Hcode Hstate Hc Hs. unfold appUrlOpen, fetch. monad.
  rewrite Hurl, Herr, Hcode, Hstate. cbv beta iota.
  assert (Hboth : JS.truthy_opt (Some code) && JS.truthy_opt (Some state) = true)
    by (destruct code; [congruence|]; destruct state; [congruence | reflexivity]).
  rewrite Hboth. cbv beta iota. rewrite (getApiBase_state s).
  destruct (fst (getApiBase s)); reflexivity.
Qed.

(** X25: every failure of the exchange ends in the [catch] block, which
    logs and closes the browser without touching store or memo: a URL that
    does not parse, an API base that cannot be computed, a request that
    fails, a response that is not OK, a body that cannot be read or
    destructured. *)
Theorem X25_callback_failures_close_browser (s : State) :
  (forall data_url, URL_searchParams data_url = None ->
     appUrlOpen data_url s = (Pending AwaitBrowserClose, after_callback_error s))
  /\ (forall data_url searchParams code state e,
        URL_searchParams data_url = Some searchParams ->
        JS.truthy_opt (JS.searchParams_get "error" searchParams) = false ->
        JS.searchParams_get "code" searchParams = Some code ->
        JS.searchParams_get "state" searchParams = Some state ->
        code <> EmptyString -> state <> EmptyString ->
        getApiBase s = (Throw e, s) ->
        appUrlOpen data_url s = (Pending AwaitBrowserClose, after_callback_error s))
  /\ (forall e, appUrlOpen_afterFetch (Throw e) s
                = (Pending AwaitBrowserClose, after_callback_error s))
  /\ (forall r, ok r = false ->
        appUrlOpen_afterFetch (Normal r) s
        = (Pending AwaitBrowserClose, after_callback_error s))
  /\ (forall e, appUrlOpen_afterJson (Throw e) s
                = (Pending AwaitBrowserClose, after_callback_error s))
  /\ (forall body e, body_token body = Throw e ->
        appUrlOpen_afterJson (Normal body) s
        = (Pending AwaitBrowserClose, after_callback_error s)).
Proof.
  split; [|split; [|split; [|split; [|split]]]].
  - intros data_url Hurl. unfold appUrlOpen, appUrlOpen_catch, Browser_close. monad.
    rewrite Hurl. reflexivity.
  - intros data_url searchParams code state e Hurl Herr Hcode Hstate Hc Hs Hbase.
    unfold appUrlOpen, appUrlOpen_catch, Browser_close, fetch. monad.
    rewrite Hurl, Herr, Hcode, Hstate. cbv beta iota.
    assert (Hboth : JS.truthy_opt (Some code) && JS.truthy_opt (Some state) = true)
      by (destruct code; [congruence|]; destruct state; [congruence | reflexivity]).
    rewrite Hboth. cbv beta iota. rewrite Hbase. reflexivity.
  - intros e. reflexivity.
  - intros r Hok. unfold appUrlOpen_afterFetch, appUrlOpen_catch, Browser_close. monad.
    rewrite Hok. reflexivity.
  - intros e. reflexivity.
  - intros body e Hbody. unfold appUrlOpen_afterJson, appUrlOpen_catch, Browser_close.
    monad. rewrite Hbody. reflexivity.
Qed.

(** X26: an OK response whose body carries a token stores that token and
    resets the memo to [undefined] before the browser is closed, so the next
    [isLoggedIn()] runs the validator again, whatever was memoized before;
    once the browser is closed the app navigates to its origin.  A body
    without a token changes neither store nor memo. *)
Theorem X26_callback_token_resets_memo (s : State) (r : Response) (body : Json) :
  ok r = true ->
  appUrlOpen_afterFetch (Normal r) s = (Pending AwaitJson, s)
  /\ (forall t, body_token body = Normal (Some t) ->
        let s' := with_event BrowserClose
                    (with___isLoggedIn None (with_localStorage (insert "token" t) s)) in
        appUrlOpen_afterJson (Normal body) s = (Pending AwaitBrowserClose, s')
        /\ localStorage s' !! "token" = Some t
        /\ (exists result s2,
              _isLoggedIn s' = (Normal result, s2)
              /\ isLoggedIn s' = (Normal result, with___isLoggedIn (Some result) s2))
        /\ appUrlOpen_afterStoreClose (Normal tt) s'
           = (Fulfilled tt,
              with_event (LocationAssign (JS.or_else (Some (origin (location s))) "/")) s'))
  /\ (body_token body = Normal None ->
      appUrlOpen_afterJson (Normal body) s
      = (Pending AwaitBrowserClose,
         with_event BrowserClose
           (with_event (ConsoleError "No token found in response") s))).
Proof.
  intros Hok. split; [|split].
  - unfold appUrlOpen_afterFetch. monad. rewrite Hok. reflexivity.
  - intros t Hbody s'. split; [|split; [|split]].
    + unfold appUrlOpen_afterJson, Browser_close. monad. rewrite Hbody. reflexivity.
    + simpl. apply lookup_insert_eq.
    + destruct (_isLoggedIn_returns s') as (result & s2 & E).
      exists result, s2. split; [exact E|].
      apply isLoggedIn_unset; [reflexivity | exact E].
    + reflexivity.
  - intros Hbody. unfold appUrlOpen_afterJson, Browser_close. monad. rewrite Hbody.
    reflexivity.
Qed.

(** *** Properties of [discordLogin] and [getUserMe] *)

Lemma string_app_assoc (a b c : string) : (a +:+ b) +:+ c = a +:+ (b +:+ c).
Proof.
  induction a as [|x a IH]; [reflexivity|].
  change (String x ((a +:+ b) +:+ c) = String x (a +:+ (b +:+ c))).
  rewrite IH. reflexivity.
Qed.

Lemma string_app_empty_r (a : string) : a +:+ EmptyString = a.
Proof.
  induction a as [|x a IH]; [reflexivity|].
  change (String x (a +:+ EmptyString) = String x a). rewrite IH. reflexivity.
Qed.

Lemma startsWith_hash_inv (h : string) :
  JS.startsWith "#" h = true -> exists q, h = String "#" q.
Proof.
  unfold JS.startsWith. destruct h as [|c q]; [discriminate|].
  cbn [String.prefix]. destruct (ascii_dec "#" c) as [<-|]; [eauto | discriminate].
Qed.

(** X27: on the web the login navigates the page to the authorization URL,
    and the redirect URI it names is the page's address without its
    fragment. *)
Theorem X27_discordLogin_web_strips_fragment (s : State) (apiBase : string) :
  isNative = false ->
  getApiBase s = (Normal apiBase, s) ->
  let page := origin (location s) +:+ pathname (location s) +:+ search (location s) in
  JS.split "#" page = [page] ->
  hash (location s) = EmptyString \/ JS.startsWith "#" (hash (location s)) = true ->
  discordLogin s
  = Normal (SetLocationHref
              (apiBase +:+ "/login/discord?redirect_uri=" +:+ encodeURIComponent page)).
Proof.
  intros Hweb Hbase page Hpage Hhash. unfold discordLogin. rewrite Hbase, Hweb.
  assert (Hhref : location_href (location s) = page +:+ hash (location s)).
  { unfold location_href. subst page. rewrite !string_app_assoc. reflexivity. }
  assert (Hhead : hd EmptyString (JS.split "#" (location_href (location s))) = page).
  { rewrite Hhref. destruct Hhash as [-> | Hstart].
    - rewrite string_app_empty_r, Hpage. reflexivity.
    - destruct (startsWith_hash_inv _ Hstart) as (q & ->).
      rewrite JSFacts.split_app, Hpage. reflexivity. }
  rewrite Hhead. reflexivity.
Qed.

(** X28: in the native shell the login opens the authorization URL in the
    browser, and the redirect URI it names is the fixed callback page under
    [API_BASE_URL], whatever the page; it is the redirect URI the callback
    listener posts with the code. *)
Theorem X28_discordLogin_native_redirect (s s2 : State) (apiBase : string)
    (data_url code state : string) (searchParams : list (string * string)) :
  isNative = true ->
  getApiBase s = (Normal apiBase, s) ->
  getApiBase s2 = (Normal apiBase, s2) ->
  URL_searchParams data_url = Some searchParams ->
  JS.truthy_opt (JS.searchParams_get "error" searchParams) = false ->
  JS.searchParams_get "code" searchParams = Some code ->
  JS.searchParams_get "state" searchParams = Some state ->
  code <> EmptyString ->
  state <> EmptyString ->
  let redirectUri := default "undefined" (API_BASE_URL env) +:+ "/discord-redirect.html" in
  discordLogin s
  = Normal (BrowserOpen
              (apiBase +:+ "/login/discord?redirect_uri="
               +:+ encodeURIComponent redirectUri))
  /\ exists req,
       fst (appUrlOpen data_url s2) = Pending (AwaitFetch req)
       /\ url req = apiBase +:+ "/mobile/callback"
       /\ body req = Some [("code", code); ("state", state);
                           ("redirect_uri", redirectUri)].
Proof.
  intros Hnative Hbase Hbase2 Hurl Herr Hcode Hstate Hc Hs redirectUri.
  split.
  - unfold discordLogin. rewrite Hbase, Hnative. reflexivity.
  - exists (callbackRequest apiBase code state). split; [|split; reflexivity].
    unfold appUrlOpen, fetch. monad.
    rewrite Hurl, Herr, Hcode, Hstate. cbv beta iota.
    assert (Hboth : JS.truthy_opt (Some code) && JS.truthy_opt (Some state) = true)
      by (destruct code; [congruence|]; destruct state; [congruence | reflexivity]).
    rewrite Hboth. cbv beta iota. rewrite Hbase2. reflexivity.
Qed.

(** X29: [getUserMe] never rejects and never writes the store: however the
    request and the body settle, its promise is fulfilled, the store is as
    [getToken] left it, at most one request has been sent, and the memo is
    either as it was or, with the result [false], set to [false]. *)
Theorem X29_getUserMe_never_rejects (net : Completion Response)
    (parsed : Completion Json) (s : State) :
  exists result s' sent,
    getUserMe_run net parsed s = (Fulfilled result, s')
    /\ localStorage s' = localStorage (snd (getToken s))
    /\ fetches s' = (fetches s ++ sent)%list
    /\ (List.length sent <= 1)%nat
    /\ (__isLoggedIn s' = __isLoggedIn s
        \/ (result = None /\ __isLoggedIn s' = Some LoggedOut)).
Proof.
  destruct (getToken_spec s)
    as [(s1 & Htok & _ & Hmemo & Hf & _) | (e & s1 & Htok & Hmemo & Hf & _)];
  unfold getUserMe_run, getUserMe, getUserMe_afterFetch, getUserMe_afterJson,
    getUserMe_catch, fetch;
  unfold async, try_catch; unfold mbind at 1, M_bind at 1; rewrite Htok; simpl snd.
  2:{ monad. exists None. eexists. exists []. split; [reflexivity|].
      rewrite app_nil_r. simpl. repeat split; auto. }
  destruct (JS.truthy_opt (localStorage s1 !! "token")); reduce_if.
  2:{ monad. exists None, s1, []. rewrite app_nil_r. simpl. repeat split; auto. }
  monad. rewrite (getApiBase_state s1).
  destruct (fst (getApiBase s1)) as [apiBase|e].
  2:{ exists None. eexists. exists []. split; [reflexivity|]. rewrite app_nil_r.
      simpl. repeat split; auto. }
  assert (Hsent : forall req : Request,
            fetches (with_event (Fetch req) s1) = (fetches s ++ [req])%list)
    by (intros req; rewrite fetches_with_event, Hf; reflexivity).
  destruct net as [r|e].
  2:{ exists None. eexists. eexists. split; [reflexivity|]. simpl localStorage.
      split; [reflexivity|]. split; [apply Hsent|]. simpl. split; [lia | auto]. }
  destruct (status r =? 200); reduce_if.
  2:{ exists None. eexists. eexists. split; [reflexivity|].
      split; [reflexivity|]. split; [apply Hsent|]. simpl. split; [lia | auto]. }
  destruct parsed as [body|e].
  2:{ exists None. eexists. eexists. split; [reflexivity|]. simpl localStorage.
      split; [reflexivity|]. split; [apply Hsent|]. simpl. split; [lia | auto]. }
  destruct (UserMeResponseSchema_safeParse body) as [data|].
  - exists (Some data). eexists. eexists. split; [reflexivity|].
    split; [reflexivity|]. split; [apply Hsent|]. simpl. split; [lia | auto].
  - exists None. eexists. eexists. split; [reflexivity|].
    split; [reflexivity|]. split.
    + rewrite fetches_with_event, app_nil_r. apply Hsent.
    + simpl. split; [lia | auto].
Qed.

End Client.

(** *** A concrete deployment to run the model on

    The page is served from example.com; the identity claims of a token are
    reduced to a subject; a response body is reduced to its [token] member. *)

Definition sampleNow : Z := 1700000000.

Definition samplePayload (issuer : string) (issuedAt expiresAt : Z)
    (subject : option string) : @JWTPayload (option string) :=
  {| iss := Some issuer; aud := Some (AudString "example.com");
     exp := Some expiresAt; iat := Some issuedAt; other := subject |}.

(** A decoder that knows six tokens. *)
Definition sample_decodeJwt (t : string) : option (@JWTPayload (option string)) :=
  if String.eqb t "fresh.jwt" then
    Some (samplePayload "https://api.example.com" (sampleNow - 7200) (sampleNow + 3600)
            (Some "user-1"))
  else if String.eqb t "stale.jwt" then
    Some (samplePayload "https://api.example.com" (sampleNow - 25000) (sampleNow + 3600)
            (Some "user-1"))
  else if String.eqb t "expired.jwt" then
    Some (samplePayload "https://api.example.com" (sampleNow - 7200) (sampleNow - 10)
            (Some "user-1"))
  else if String.eqb t "alien.jwt" then
    Some (samplePayload "https://api.elsewhere.example" (sampleNow - 7200) (sampleNow + 3600)
            (Some "user-1"))
  else if String.eqb t "odd.jwt" then
    Some (samplePayload "https://api.example.com" (sampleNow - 7200) (sampleNow + 3600) None)
  else if String.eqb t "new.jwt" then
    Some (samplePayload "https://api.example.com" sampleNow (sampleNow + 3600)
            (Some "user-1"))
  else None.

(** The claim shape asks for a subject. *)
Definition sample_safeParse (p : @JWTPayload (option string)) : option string := other p.

(** The refresh schema asks for a [token] member. *)
Definition sample_refreshParse (b : option string) : option string := b.

Definition sample_URLSearchParams (q : string) : list (string * string) :=
  if String.eqb q "token=expired.jwt" then [("token", "expired.jwt")] else [].

(** A target [//host/path?query] stays on the page's origin when [host]
    is the page's own. *)
Definition sample_same_origin_path (l : Location) (u : string) : option string :=
  match JS.split "/" (hd EmptyString (JS.split "?" (JS.slice 2 u))) with
  | host :: rest =>
      if String.eqb host (hostname l) then Some ("/" +:+ JS.join "/" rest) else None
  | [] => None
  end.

Definition sample_URL_searchParams (u : string) : option (list (string * string)) :=
  if String.eqb u "https://example.com/discord-redirect.html?code=abc"
  then Some [("code", "abc")]
  else if String.eqb u "https://example.com/discord-redirect.html?error=access_denied"
  then Some [("error", "access_denied")]
  else None.

Definition webEnv : Env :=
  {| platform := "web"; CAPACITOR_PRODUCTION_HOSTNAME := None; API_BASE_URL := None |}.

Definition nativeEnv : Env :=
  {| platform := "ios"; CAPACITOR_PRODUCTION_HOSTNAME := Some "example.com";
     API_BASE_URL := Some "https://api.example.com" |}.

Definition sampleLocation (fragment : string) : Location :=
  {| hostname := "example.com"; pathname := "/"; search := EmptyString;
     hash := fragment; origin := "https://example.com" |}.

(** A page with [stored] in the token store, [memo] in the session cache
    and [fragment] as the fragment of its address. *)
Definition sampleState (stored : option string) (memo : option (@IsLoggedInResponse string))
    (fragment : string) : @State string :=
  {| localStorage := match stored with
                     | Some t => {[ "token" := t ]}
                     | None => ∅
                     end;
     __isLoggedIn := memo;
     location := sampleLocation fragment;
     Date_now := sampleNow * 1000 + 250;
     trace := [] |}.

Definition sample_getToken := @getToken string sample_URLSearchParams
  sample_same_origin_path.
Definition sample__isLoggedIn (e : Env) :=
  @_isLoggedIn string (option string) sample_decodeJwt sample_safeParse
    sample_URLSearchParams sample_same_origin_path e.
Definition sample_isLoggedIn (e : Env) :=
  @isLoggedIn string (option string) sample_decodeJwt sample_safeParse
    sample_URLSearchParams sample_same_origin_path e.
Definition sample_postRefresh_run (e : Env) :=
  @postRefresh_run string (option string) sample_refreshParse sample_URLSearchParams
    sample_same_origin_path e.

Definition internalServerError : Response :=
  {| status := 500; statusText := "Internal Server Error" |}.
Definition okResponse : Response := {| status := 200; statusText := "OK" |}.

(** The audience and the API base of three deployments. *)
Example getApiBase_production :
  fst (@getApiBase string webEnv (sampleState None None EmptyString))
  = Normal "https://api.example.com"
  /\ fst (@getAudience string webEnv
            {| localStorage := ∅; __isLoggedIn := None;
               location := {| hostname := "play.eu.example.com"; pathname := "/";
                              search := EmptyString; hash := EmptyString;
                              origin := "https://play.eu.example.com" |};
               Date_now := 0; trace := [] |})
     = Normal "example.com".
Proof. split; vm_compute; reflexivity. Qed.

Example getApiBase_localhost :
  let page (stored : gmap string string) : @State string :=
    {| localStorage := stored; __isLoggedIn := None;
       location := {| hostname := "localhost"; pathname := "/"; search := EmptyString;
                      hash := EmptyString; origin := "http://localhost:9000" |};
       Date_now := 0; trace := [] |} in
  fst (getApiBase webEnv (page ∅)) = Normal "http://localhost:8787"
  /\ fst (getApiBase {| platform := "android"; CAPACITOR_PRODUCTION_HOSTNAME := None;
                        API_BASE_URL := Some "http://192.168.1.5:9000" |} (page ∅))
     = Normal "http://192.168.1.5:8787".
Proof. split; vm_compute; reflexivity. Qed.

(** *** The claims on the concrete deployment *)

Ltac run := vm_compute; reflexivity.
Ltac run_le := vm_compute; intros H; discriminate H.


(** A token of another issuer: logged out on the web, accepted in the
    native shell. *)
Lemma C2_issuer_mismatch_witness :
  (exists s',
     sample__isLoggedIn webEnv (sampleState (Some "alien.jwt") None EmptyString)
     = (Normal LoggedOut, s')
     /\ localStorage s' !! "token" = None
     /\ fetches s' = [logoutRequest "https://api.example.com" "alien.jwt"])
  /\ (exists s',
        sample__isLoggedIn nativeEnv (sampleState (Some "alien.jwt") None EmptyString)
        = (Normal (LoggedIn "alien.jwt" "user-1"), s')
        /\ localStorage s' !! "token" = Some "alien.jwt"
        /\ fetches s' = []).
Proof.
  split.
  - refine (proj1 (@C2_issuer_mismatch string (option string) sample_decodeJwt
             sample_safeParse sample_URLSearchParams sample_same_origin_path webEnv eq_refl
             (sampleState (Some "alien.jwt") None EmptyString)
             (sampleState (Some "alien.jwt") None EmptyString)
             "alien.jwt" "https://api.example.com" "example.com"
             (samplePayload "https://api.elsewhere.example" (sampleNow - 7200)
                (sampleNow + 3600) (Some "user-1"))
             _ _ _ _ _) _); try run.
    discriminate.
  - refine (proj2 (proj2 (@C2_issuer_mismatch string (option string) sample_decodeJwt
             sample_safeParse sample_URLSearchParams
               sample_same_origin_path nativeEnv eq_refl
             (sampleState (Some "alien.jwt") None EmptyString)
             (sampleState (Some "alien.jwt") None EmptyString)
             "alien.jwt" "https://api.example.com" "example.com"
             (samplePayload "https://api.elsewhere.example" (sampleNow - 7200)
                (sampleNow + 3600) (Some "user-1"))
             _ _ _ _ _) _) _ _); try run.
    discriminate.
Defined.

(** Scenario B. *)
Lemma C3_stale_token_witness :
  exists s_dispatch s',
    sample__isLoggedIn webEnv (sampleState (Some "stale.jwt") None EmptyString)
    = (Normal (LoggedIn "stale.jwt" "user-1"), s')
    /\ @postRefresh string sample_URLSearchParams sample_same_origin_path webEnv s_dispatch
       = (Pending (AwaitFetch (refreshRequest "https://api.example.com" "stale.jwt")), s')
    /\ fetches s' = [refreshRequest "https://api.example.com" "stale.jwt"]
    /\ localStorage s' !! "token" = Some "stale.jwt".
Proof.
  apply (@C3_stale_token_still_logged_in string (option string) sample_decodeJwt
           sample_safeParse sample_URLSearchParams sample_same_origin_path webEnv eq_refl
           (sampleState (Some "stale.jwt") None EmptyString)
           (sampleState (Some "stale.jwt") None EmptyString)
           "stale.jwt" "https://api.example.com" "example.com"
           (samplePayload "https://api.example.com" (sampleNow - 25000)
              (sampleNow + 3600) (Some "user-1"))
           (sampleNow - 25000) "user-1"); try run.
  - right. reflexivity.
  - run_le.
Defined.

(** A token without a subject: not logged in, and still stored. *)
Lemma C8_shape_mismatch_witness :
  exists s' sent,
    sample__isLoggedIn webEnv (sampleState (Some "odd.jwt") None EmptyString)
    = (Normal LoggedOut, s')
    /\ localStorage s' !! "token" = Some "odd.jwt"
    /\ __isLoggedIn s' = None
    /\ fetches s' = sent
    /\ sent = []
    /\ Forall (fun req => url req <> "https://api.example.com/logout"
                          /\ url req <> "https://api.example.com/revoke") sent.
Proof.
  apply (@C8_shape_mismatch_keeps_token string (option string) sample_decodeJwt
           sample_safeParse sample_URLSearchParams sample_same_origin_path webEnv eq_refl
           (sampleState (Some "odd.jwt") None EmptyString)
           (sampleState (Some "odd.jwt") None EmptyString)
           "odd.jwt" "https://api.example.com" "example.com"
           (samplePayload "https://api.example.com" (sampleNow - 7200)
              (sampleNow + 3600) None)); try run.
  right. reflexivity.
Defined.

Lemma C9_logOut_without_token_witness :
  @logOut string webEnv true (sampleState None None EmptyString)
  = (Fulfilled None, sampleState None None EmptyString)
  /\ ~ signals_failure (fst (@logOut string webEnv true (sampleState None None EmptyString)))
  /\ forall net, @logOut_run string webEnv true net (sampleState None None EmptyString)
                 = (Fulfilled None, sampleState None None EmptyString).
Proof.
  apply (@C9_logOut_without_token string webEnv true (sampleState None None EmptyString)).
  run.
Defined.

(** A callback that carries a code and no state. *)
Lemma C10_callback_witness :
  @appUrlOpen string sample_URL_searchParams nativeEnv
    "https://example.com/discord-redirect.html?code=abc"
    (sampleState None None EmptyString)
  = (Fulfilled tt, sampleState None None EmptyString).
Proof.
  apply (@C10_callback_without_parameters string sample_URL_searchParams nativeEnv
           "https://example.com/discord-redirect.html?code=abc"
           (sampleState None None EmptyString) [("code", "abc")]).
  - run.
  - run.
  - right. run.
Defined.

(** The page is logged in with a stale token when the refresh comes back. *)
Definition sessionState : @State string :=
  sampleState (Some "stale.jwt") (Some (LoggedIn "stale.jwt" "user-1")) EmptyString.

(** Scenario D, the part that holds. *)
Lemma C5_refresh_not_200_witness :
  exists s',
    sample_postRefresh_run webEnv (Normal internalServerError) (Throw (Error "no body"))
      sessionState
    = (Fulfilled false, s')
    /\ localStorage s' = localStorage sessionState
    /\ (JS.startsWith "#" (hash (location sessionState)) = false ->
        localStorage s' = localStorage sessionState)
    /\ __isLoggedIn s' = __isLoggedIn sessionState
    /\ forall v, __isLoggedIn sessionState = Some v ->
                 sample_isLoggedIn webEnv s' = (Normal v, s').
Proof.
  apply (@C5_refresh_not_200 string (option string) (option string) sample_decodeJwt
           sample_safeParse sample_refreshParse sample_URLSearchParams
             sample_same_origin_path webEnv
           sessionState sessionState "stale.jwt" "https://api.example.com"
           internalServerError (Throw (Error "no body"))); try run.
  discriminate.
Defined.

(** C5 as stated fails there: the refresh endpoint answers 500,
    [postRefresh()] resolves to [false], and [isLoggedIn()] still reports
    the session as logged in. *)
Lemma C5_session_still_logged_in_after_500 :
  exists s',
    sample_postRefresh_run webEnv (Normal internalServerError) (Throw (Error "no body"))
      sessionState
    = (Fulfilled false, s')
    /\ fst (sample_isLoggedIn webEnv s') = Normal (LoggedIn "stale.jwt" "user-1")
    /\ fst (sample_isLoggedIn webEnv s') <> Normal LoggedOut.
Proof.
  eexists. split; [run|]. split; [run|]. vm_compute. discriminate.
Qed.

(** C4 on that session: the refresh endpoint answers 200 with a
    replacement token.  [postRefresh()] stores it and resolves to [true];
    the memo is not reset, and the next [isLoggedIn()] returns the memoized
    old token without decoding anything. *)
Theorem C4_refresh_success_leaves_memo :
  exists s',
    sample_postRefresh_run webEnv (Normal okResponse) (Normal (Some "new.jwt")) sessionState
    = (Fulfilled true, s')
    /\ localStorage s' !! "token" = Some "new.jwt"
    /\ __isLoggedIn s' = Some (LoggedIn "stale.jwt" "user-1")
    /\ sample_isLoggedIn webEnv s' = (Normal (LoggedIn "stale.jwt" "user-1"), s')
    /\ decodes s' = [].
Proof.
  eexists. split; [run|]. repeat split; run.
Qed.


(** *** The scenarios of the specification *)

(** Scenario A: a token issued two hours ago that expires in one hour. *)
Example scenario_A_fresh_token :
  sample_isLoggedIn webEnv (sampleState (Some "fresh.jwt") None EmptyString)
  = (Normal (LoggedIn "fresh.jwt" "user-1"),
     {| localStorage := {[ "token" := "fresh.jwt" ]};
        __isLoggedIn := Some (LoggedIn "fresh.jwt" "user-1");
        location := sampleLocation EmptyString;
        Date_now := sampleNow * 1000 + 250;
        trace := [DecodeJwt "fresh.jwt"] |}).
Proof. vm_compute. reflexivity. Qed.

(** Scenario B: the same token issued 25000 seconds ago. *)
Example scenario_B_stale_token :
  let '(result, s') :=
    sample_isLoggedIn webEnv (sampleState (Some "stale.jwt") None EmptyString) in
  result = Normal (LoggedIn "stale.jwt" "user-1")
  /\ trace s' = [DecodeJwt "stale.jwt"; ConsoleLog "Refreshing access token...";
                 Fetch (refreshRequest "https://api.example.com" "stale.jwt")].
Proof. vm_compute. split; reflexivity. Qed.

(** Scenario C: a token that expired ten seconds ago. *)
Example scenario_C_expired_token :
  let '(result, s') :=
    sample_isLoggedIn webEnv (sampleState (Some "expired.jwt") None EmptyString) in
  result = Normal LoggedOut
  /\ localStorage s' = ∅
  /\ fetches s' = [logoutRequest "https://api.example.com" "expired.jwt"].
Proof. vm_compute. repeat split; reflexivity. Qed.

(** Scenario F: the callback URL carries [error=access_denied]. *)
Example scenario_F_callback_error :
  @appUrlOpen string sample_URL_searchParams nativeEnv
    "https://example.com/discord-redirect.html?error=access_denied"
    (sampleState None None EmptyString)
  = (Pending AwaitBrowserClose,
     {| localStorage := ∅;
        __isLoggedIn := None;
        location := sampleLocation EmptyString;
        Date_now := sampleNow * 1000 + 250;
        trace := [ConsoleError "Error from auth provider:"; BrowserClose] |}).
Proof. vm_compute. reflexivity. Qed.

(** A development page on localhost with an [apiHost] override, in a build
    without [API_BASE_URL], holding a token that expired ten seconds ago. *)
Definition localhostState : @State string :=
  {| localStorage := {[ "token" := "expired.jwt"; "apiHost" := "http://localhost:9000" ]};
     __isLoggedIn := None;
     location := {| hostname := "localhost"; pathname := "/";
                    search := EmptyString; hash := EmptyString;
                    origin := "http://localhost:9000" |};
     Date_now := sampleNow * 1000;
     trace := [] |}.


(** *** The further properties on the concrete deployment *)

(** A body is reduced to its [token] member; an empty one counts as none. *)
Definition sample_body_token (b : option string) : Completion (option string) :=
  Normal match b with
         | Some t => if JS.truthy t then Some t else None
         | None => None
         end.

(** Enough of [encodeURIComponent] for the addresses used here. *)
Definition sample_encodeURIComponent (u : string) : string :=
  if String.eqb u "https://example.com/" then "https%3A%2F%2Fexample.com%2F"
  else if String.eqb u "https://api.example.com/discord-redirect.html"
  then "https%3A%2F%2Fapi.example.com%2Fdiscord-redirect.html"
  else u.

Definition sample_callback_searchParams (u : string) : option (list (string * string)) :=
  if String.eqb u "https://api.example.com/discord-redirect.html?code=abc&state=xyz"
  then Some [("code", "abc"); ("state", "xyz")]
  else None.

(** A native build for another deployment. *)
Definition otherNativeEnv : Env :=
  {| platform := "android"; CAPACITOR_PRODUCTION_HOSTNAME := Some "other.org";
     API_BASE_URL := Some "https://api.other.org" |}.

Definition subdomainState : @State string :=
  {| localStorage := ∅; __isLoggedIn := None;
     location := {| hostname := "play.eu.example.com"; pathname := "/";
                    search := EmptyString; hash := EmptyString;
                    origin := "https://play.eu.example.com" |};
     Date_now := 0; trace := [] |}.

Definition emptyState : @State string := sampleState None None EmptyString.

Lemma X5_getAudience_witness :
  @getAudience string webEnv emptyState = (Normal "example.com", emptyState)
  /\ fst (@getAudience string webEnv subdomainState)
     = fst (@getAudience string webEnv emptyState).
Proof.
  destruct (@X5_getAudience_subdomains string webEnv emptyState subdomainState "play.eu")
    as (Hshort & Hsub).
  split.
  - apply Hshort. vm_compute. lia.
  - apply Hsub; [vm_compute; lia | reflexivity].
Defined.

Lemma X6_getApiBase_witness :
  @getApiBase string webEnv emptyState = (Normal "https://api.example.com", emptyState).
Proof.
  apply (@X6_getApiBase_remote string webEnv emptyState "example.com");
    [run | discriminate].
Defined.

(** A development build served from localhost. *)
Definition devEnv : Env :=
  {| platform := "web"; CAPACITOR_PRODUCTION_HOSTNAME := None;
     API_BASE_URL := Some "http://localhost:9000" |}.

Lemma X8_apiHost_value_witness :
  fst (@getApiBase string devEnv
         (with_localStorage (insert "apiHost" "http://localhost:9000") localhostState))
  = Normal "http://localhost:8787"
  /\ fst (@getApiBase string devEnv
            (with_localStorage (insert "apiHost" "http://localhost:9000") localhostState))
     = fst (@getApiBase string devEnv
              (with_localStorage (insert "apiHost" "https://api.staging.example")
                 localhostState)).
Proof.
  split; [vm_compute; reflexivity|].
  apply (@X8_getApiBase_ignores_apiHost_value string devEnv localhostState); discriminate.
Defined.

(** A logged-in page that receives another token in its fragment. *)
Definition fragmentState : @State string :=
  sampleState (Some "stale.jwt") None "#token=expired.jwt".

Lemma X9_getToken_fragment_witness :
  sample_getToken fragmentState
  = (Normal (Some "expired.jwt"),
     with_hash EmptyString
       (with_event (HistoryReplaceState "/")
          (with_localStorage (insert "token" "expired.jwt") fragmentState))).
Proof.
  refine (proj1 (@X9_getToken_fragment string sample_URLSearchParams
    sample_same_origin_path fragmentState
                   "token=expired.jwt" eq_refl eq_refl) "expired.jwt" _ _);
    [run | discriminate].
Defined.

(** The same page reached through a path that begins with [//]: the
    rewritten address would name another host. *)
Definition refusedState : @State string :=
  {| localStorage := {[ "token" := "stale.jwt" ]};
     __isLoggedIn := None;
     location := {| hostname := "example.com"; pathname := "//other.example/play";
                    search := EmptyString; hash := "#token=expired.jwt";
                    origin := "https://example.com" |};
     Date_now := sampleNow * 1000 + 250;
     trace := [] |}.

(** There [getToken] stores the delivered token and then throws: the
    fragment stays in the address, and the validator answers [false]
    without decoding anything. *)
Example getToken_refused_target :
  sample_getToken refusedState
  = (Throw (Error "SecurityError"),
     with_localStorage (insert "token" "expired.jwt") refusedState)
  /\ fst (sample__isLoggedIn webEnv refusedState) = Normal LoggedOut
  /\ decodes (snd (sample__isLoggedIn webEnv refusedState)) = [].
Proof. vm_compute. repeat split; reflexivity. Qed.


Lemma X11_logOut_is_local_witness :
  exists p s',
    @logOut_run string webEnv false (Normal internalServerError) sessionState = (p, s')
    /\ localStorage s' = delete "token" (localStorage sessionState)
    /\ __isLoggedIn s' = Some LoggedOut
    /\ sample_isLoggedIn webEnv s' = (Normal LoggedOut, s')
    /\ forall again, @logOut string webEnv again s' = (Fulfilled None, s').
Proof.
  apply (@X11_logOut_is_local string (option string) sample_decodeJwt sample_safeParse
           sample_URLSearchParams
             sample_same_origin_path webEnv false (Normal internalServerError)
           sessionState "stale.jwt").
  run.
Defined.

Lemma X12_logOut_outcome_witness :
  exists s1,
    @logOut string webEnv true sessionState
    = (Pending (AwaitFetch {| url := "https://api.example.com/revoke"; method := "POST";
                              headers := [("authorization", "Bearer stale.jwt")];
                              body := None |}), s1)
    /\ @logOut_afterFetch string (Normal internalServerError) s1
       = (Fulfilled (Some false), with_event (ConsoleError "Logout failed") s1)
    /\ @logOut_afterFetch string (Normal okResponse) s1 = (Fulfilled (Some true), s1).
Proof.
  destruct (@X12_logOut_request_and_outcome string webEnv true sessionState
              "stale.jwt" "https://api.example.com" ltac:(run) ltac:(run))
    as (s1 & Hsend & _ & Hanswer & _).
  exists s1. split; [exact Hsend|].
  split; [exact (Hanswer internalServerError) | exact (Hanswer okResponse)].
Defined.


Lemma X15_postRefresh_true_witness :
  fst (sample_postRefresh_run webEnv (Normal okResponse) (Normal (Some "new.jwt"))
         sessionState) = Fulfilled true
  /\ localStorage (snd (sample_postRefresh_run webEnv (Normal okResponse)
                          (Normal (Some "new.jwt")) sessionState)) !! "token"
     = Some "new.jwt".
Proof.
  destruct (@X15_postRefresh_true_iff string (option string) sample_refreshParse
              sample_URLSearchParams
                sample_same_origin_path webEnv sessionState sessionState "stale.jwt"
              "https://api.example.com" (Normal okResponse) (Normal (Some "new.jwt"))
              ltac:(run) ltac:(run) ltac:(run)) as (Hiff & Hstore).
  split.
  - apply Hiff. exists okResponse, (Some "new.jwt"), "new.jwt". repeat split.
  - apply (Hstore okResponse (Some "new.jwt") "new.jwt"); reflexivity.
Defined.

Lemma X16_postRefresh_failure_witness :
  exists s',
    sample_postRefresh_run webEnv (Throw (Error "Failed to fetch"))
      (Throw (Error "no body")) sessionState
    = (Fulfilled false, s')
    /\ localStorage s' !! "token" = Some "stale.jwt"
    /\ __isLoggedIn s' = Some LoggedOut
    /\ sample_isLoggedIn webEnv s' = (Normal LoggedOut, s').
Proof.
  apply (@X16_postRefresh_failure_logs_out string (option string) (option string)
           sample_decodeJwt sample_safeParse sample_refreshParse sample_URLSearchParams
             sample_same_origin_path
           webEnv sessionState sessionState "stale.jwt" "https://api.example.com"
           (Throw (Error "Failed to fetch")) (Throw (Error "no body"))
           (Error "Failed to fetch")); try run.
  left. reflexivity.
Defined.

Lemma X17_refresh_overwrites_logout_witness :
  let sent := snd (@postRefresh string sample_URLSearchParams
    sample_same_origin_path webEnv sessionState) in
  let loggedOut := snd (@logOut string webEnv false sent) in
  let landed := @postRefresh_afterJson string (option string) sample_refreshParse
                  (Normal (Some "new.jwt"))
                  (snd (@postRefresh_afterFetch string (Normal okResponse) loggedOut)) in
  fst (@postRefresh string sample_URLSearchParams
    sample_same_origin_path webEnv sessionState)
  = Pending (AwaitFetch (refreshRequest "https://api.example.com" "stale.jwt"))
  /\ localStorage loggedOut !! "token" = None
  /\ fst landed = Fulfilled true
  /\ localStorage (snd landed) !! "token" = Some "new.jwt"
  /\ __isLoggedIn (snd landed) = Some LoggedOut.
Proof.
  apply (@X17_refresh_overwrites_logout string (option string) sample_refreshParse
           sample_URLSearchParams
             sample_same_origin_path webEnv sessionState sessionState "stale.jwt"
           "https://api.example.com" false okResponse (Some "new.jwt") "new.jwt"); run.
Defined.

Definition freshState : @State string := sampleState (Some "fresh.jwt") None EmptyString.

Lemma X18_LoggedIn_means_checked_witness :
  exists s1 payload apiBase audience,
    sample_getToken freshState = (Normal (Some "fresh.jwt"), s1)
    /\ sample_decodeJwt "fresh.jwt" = Some payload
    /\ @getApiBase string webEnv s1 = (Normal apiBase, s1)
    /\ @getAudience string webEnv s1 = (Normal audience, s1)
    /\ (isNative webEnv = true \/ iss payload = Some apiBase)
    /\ aud payload = Some (AudString audience)
    /\ (forall e, exp payload = Some e -> now freshState < e)
    /\ sample_safeParse payload = Some "user-1"
    /\ localStorage (snd (sample__isLoggedIn webEnv freshState)) !! "token"
       = Some "fresh.jwt".
Proof.
  apply (@X18_LoggedIn_means_checked string (option string) sample_decodeJwt
           sample_safeParse sample_URLSearchParams
             sample_same_origin_path webEnv eq_refl freshState
           (snd (sample__isLoggedIn webEnv freshState)) "fresh.jwt" "user-1").
  run.
Defined.

Lemma X19_validator_without_token_witness :
  sample__isLoggedIn webEnv emptyState = (Normal LoggedOut, emptyState)
  /\ decodes emptyState = decodes emptyState
  /\ fetches emptyState = fetches emptyState.
Proof.
  apply (@X19_validator_without_token string (option string) sample_decodeJwt
           sample_safeParse sample_URLSearchParams
             sample_same_origin_path webEnv emptyState emptyState None);
    run.
Defined.

Definition garbageState : @State string :=
  sampleState (Some "not-a-jwt") (Some LoggedOut) EmptyString.

Lemma X20_malformed_token_witness :
  exists s',
    sample__isLoggedIn webEnv garbageState = (Normal LoggedOut, s')
    /\ localStorage s' !! "token" = Some "not-a-jwt"
    /\ __isLoggedIn s' = __isLoggedIn garbageState
    /\ fetches s' = fetches garbageState
    /\ decodes s' = (decodes garbageState ++ ["not-a-jwt"])%list.
Proof.
  apply (@X20_malformed_token_is_kept string (option string) sample_decodeJwt
           sample_safeParse sample_URLSearchParams
             sample_same_origin_path webEnv garbageState garbageState
           "not-a-jwt"); [run | discriminate | run].
Defined.

(** A token for example.com presented to the native build of other.org. *)
Lemma X21_audience_mismatch_witness :
  exists s',
    sample__isLoggedIn otherNativeEnv freshState = (Normal LoggedOut, s')
    /\ localStorage s' !! "token" = None
    /\ __isLoggedIn s' = Some LoggedOut
    /\ fetches s'
       = (fetches freshState ++ [logoutRequest "https://api.other.org" "fresh.jwt"])%list.
Proof.
  apply (@X21_audience_mismatch_logs_out string (option string) sample_decodeJwt
           sample_safeParse sample_URLSearchParams
             sample_same_origin_path otherNativeEnv eq_refl
           freshState freshState "fresh.jwt" "https://api.other.org" "other.org"
           (samplePayload "https://api.example.com" (sampleNow - 7200) (sampleNow + 3600)
              (Some "user-1"))); try run.
  - left. reflexivity.
  - discriminate.
Defined.

Lemma X22_validator_at_most_one_witness :
  exists r s' decoded sent,
    sample__isLoggedIn webEnv sessionState = (Normal r, s')
    /\ decodes s' = (decodes sessionState ++ decoded)%list
    /\ fetches s' = (fetches sessionState ++ sent)%list
    /\ (List.length decoded <= 1)%nat
    /\ (List.length sent <= 1)%nat.
Proof.
  exact (@X22_validator_at_most_one_request string (option string) sample_decodeJwt
           sample_safeParse sample_URLSearchParams
             sample_same_origin_path webEnv eq_refl sessionState).
Defined.

Lemma X23_callback_error_witness :
  exists s',
    @appUrlOpen string sample_URL_searchParams nativeEnv
      "https://example.com/discord-redirect.html?error=access_denied" emptyState
    = (Pending AwaitBrowserClose, s')
    /\ trace s' = (trace emptyState
                   ++ [ConsoleError "Error from auth provider:"; BrowserClose])%list
    /\ fetches s' = fetches emptyState
    /\ localStorage s' = localStorage emptyState
    /\ __isLoggedIn s' = __isLoggedIn emptyState
    /\ @appUrlOpen_afterClose string (Normal tt) s' = (Fulfilled tt, s').
Proof.
  apply (@X23_callback_error_closes_browser string sample_URL_searchParams nativeEnv
           "https://example.com/discord-redirect.html?error=access_denied" emptyState
           [("error", "access_denied")]); run.
Defined.

Lemma X24_callback_exchange_witness :
  @appUrlOpen string sample_callback_searchParams nativeEnv
    "https://api.example.com/discord-redirect.html?code=abc&state=xyz" emptyState
  = (Pending (AwaitFetch (callbackRequest nativeEnv "https://api.example.com" "abc" "xyz")),
     with_event (Fetch (callbackRequest nativeEnv "https://api.example.com" "abc" "xyz"))
       emptyState).
Proof.
  refine (eq_trans
            (@X24_callback_exchanges_code string sample_callback_searchParams nativeEnv
               "https://api.example.com/discord-redirect.html?code=abc&state=xyz"
               emptyState [("code", "abc"); ("state", "xyz")] "abc" "xyz" _ _ _ _ _ _) _);
    try run; discriminate.
Defined.

Lemma X25_callback_failure_witness :
  @appUrlOpen string sample_callback_searchParams nativeEnv "not a url" emptyState
  = (Pending AwaitBrowserClose, after_callback_error emptyState)
  /\ @appUrlOpen_afterFetch string (Normal internalServerError) emptyState
     = (Pending AwaitBrowserClose, after_callback_error emptyState).
Proof.
  destruct (@X25_callback_failures_close_browser string (option string)
              sample_callback_searchParams sample_body_token nativeEnv emptyState)
    as (Hurl & _ & _ & Hnotok & _).
  split; [apply Hurl; run | apply Hnotok; run].
Defined.

Lemma X26_callback_token_witness :
  let s' := with_event BrowserClose
              (with___isLoggedIn None
                 (with_localStorage (insert "token" "fresh.jwt") garbageState)) in
  @appUrlOpen_afterJson string (option string) sample_body_token
    (Normal (Some "fresh.jwt")) garbageState
  = (Pending AwaitBrowserClose, s')
  /\ localStorage s' !! "token" = Some "fresh.jwt"
  /\ (exists result s2,
        sample__isLoggedIn nativeEnv s' = (Normal result, s2)
        /\ sample_isLoggedIn nativeEnv s'
           = (Normal result, with___isLoggedIn (Some result) s2))
  /\ @appUrlOpen_afterStoreClose string (Normal tt) s'
     = (Fulfilled tt, with_event (LocationAssign "https://example.com") s').
Proof.
  exact (proj1 (proj2 (@X26_callback_token_resets_memo string (option string)
                         (option string) sample_decodeJwt sample_safeParse
                         sample_URLSearchParams
                           sample_same_origin_path sample_body_token nativeEnv garbageState
                         okResponse (Some "fresh.jwt") eq_refl))
           "fresh.jwt" eq_refl).
Defined.

Lemma X27_discordLogin_web_witness :
  @discordLogin string webEnv sample_encodeURIComponent fragmentState
  = Normal (SetLocationHref
              "https://api.example.com/login/discord?redirect_uri=https%3A%2F%2Fexample.com%2F").
Proof.
  apply (@X27_discordLogin_web_strips_fragment string webEnv sample_encodeURIComponent
           fragmentState "https://api.example.com"); try run.
  right. run.
Defined.

Lemma X28_discordLogin_native_witness :
  @discordLogin string nativeEnv sample_encodeURIComponent emptyState
  = Normal (BrowserOpen
              ("https://api.example.com" +:+ "/login/discord?redirect_uri="
               +:+ sample_encodeURIComponent
                     "https://api.example.com/discord-redirect.html"))
  /\ exists req,
       fst (@appUrlOpen string sample_callback_searchParams nativeEnv
              "https://api.example.com/discord-redirect.html?code=abc&state=xyz"
              emptyState) = Pending (AwaitFetch req)
       /\ url req = "https://api.example.com" +:+ "/mobile/callback"
       /\ body req = Some [("code", "abc"); ("state", "xyz");
                           ("redirect_uri",
                            "https://api.example.com/discord-redirect.html")].
Proof.
  apply (@X28_discordLogin_native_redirect string sample_callback_searchParams nativeEnv
           sample_encodeURIComponent emptyState emptyState "https://api.example.com"
           "https://api.example.com/discord-redirect.html?code=abc&state=xyz"
           "abc" "xyz" [("code", "abc"); ("state", "xyz")]); try run; discriminate.
Defined.

End Jwt.
